(** * Manual polling tool: the browser-side form controller

    A shallow embedding of [static/js/main.js].  The script runs once on
    [DOMContentLoaded]; it renders the per-provider checkbox panels, seeds the
    date inputs, wires the tab buttons and wires the form submission.

    The page is modelled through what the script reads and writes of it:
    - the elements it fetches with [document.getElementById] live in a store
      keyed by their id (checkbox panels, status and results elements);
    - the node lists it obtains from [querySelectorAll] are lists of element
      records in document order;
    - the content the script builds ([label], [input], [a], [pre]) is a tree
      of [node]s.
    This is the page layout the script is written for: ids name one element
    each; the status and results elements of a provider lie beside its form,
    not around it or inside one another; the checkbox panels are not nested;
    tab buttons and tab panes are different elements.

    A JavaScript string is a [string] whose characters stand for its code
    units; a number decoded from JSON is carried by its canonical text.
    What the browser adds to a run - the clock, the local time zone, the
    server's answer, the object URL of a blob, the wording of a TypeError or
    SyntaxError, what it selects for a selector text that is not modelled
    here - is an argument of the function that uses it. *)

From Stdlib Require Import ZArith Lia Ascii String.
From stdpp Require Import base strings list gmap pretty.

Open Scope string_scope.

Set Warnings "-register-all".

(** ** JavaScript string methods used by the script *)

Module JsString.

Fixpoint skip (n : nat) (s : string) : string :=
  match n, s with
  | O, _ => s
  | S _, EmptyString => EmptyString
  | S n', String _ s' => skip n' s'
  end.

(** [s.includes(sub)] *)
Fixpoint includes (s sub : string) : bool :=
  String.prefix sub s ||
  match s with
  | EmptyString => false
  | String _ s' => includes s' sub
  end.

(** [s.endsWith(suffix)] *)
Definition endsWith (s suffix : string) : bool :=
  let n := String.length s in
  let m := String.length suffix in
  (m <=? n)%nat && String.eqb (skip (n - m) s) suffix.

(** [s.replace(pat, rep)] with a string pattern: only the first
    occurrence is replaced. *)
Fixpoint replace_first (s pat rep : string) : string :=
  if String.prefix pat s then rep +:+ skip (String.length pat) s
  else match s with
       | EmptyString => EmptyString
       | String c s' => String c (replace_first s' pat rep)
       end.

(** [s.replace(/c/g, d)] for a one-character pattern [c]. *)
Fixpoint replace_all (s : string) (c d : ascii) : string :=
  match s with
  | EmptyString => EmptyString
  | String x s' =>
      String (if Ascii.eqb x c then d else x) (replace_all s' c d)
  end.

(** [s.charAt(0)] *)
Definition charAt0 (s : string) : string :=
  match s with
  | EmptyString => EmptyString
  | String c _ => String c EmptyString
  end.

(** [s.slice(1)] *)
Definition slice1 (s : string) : string := skip 1 s.

(** [toUpperCase] on the letters a-z; the script applies it to the first
    letter of the literals ['dimensions'] and ['metrics'] only. *)
Definition upper_char (c : ascii) : ascii :=
  let n := nat_of_ascii c in
  if (97 <=? n)%nat && (n <=? 122)%nat then ascii_of_nat (n - 32) else c.

Fixpoint toUpperCase (s : string) : string :=
  match s with
  | EmptyString => EmptyString
  | String c s' => String (upper_char c) (toUpperCase s')
  end.

End JsString.

(** ** DOM content *)

(** The properties of an element that the script sets or reads. *)
Record el := mkEl {
  el_tag : string;
  el_id : string;
  el_type : string;
  el_value : string;
  el_checked : bool;
  el_href : string;
  el_download : string
}.

Inductive node :=
| Text (data : string)
| Elem (e : el) (children : list node).

(** [document.createElement(tag)]: an [input] starts as a text input. *)
Definition createElement (tag : string) : node :=
  Elem {| el_tag := tag; el_id := "";
          el_type := if String.eqb tag "input" then "text" else "";
          el_value := ""; el_checked := false;
          el_href := ""; el_download := "" |} [].

Definition createTextNode (data : string) : node := Text data.

Definition set_type (v : string) (n : node) : node :=
  match n with
  | Elem e ks => Elem (mkEl (el_tag e) (el_id e) v (el_value e) (el_checked e)
                            (el_href e) (el_download e)) ks
  | Text _ => n
  end.

Definition set_value (v : string) (n : node) : node :=
  match n with
  | Elem e ks => Elem (mkEl (el_tag e) (el_id e) (el_type e) v (el_checked e)
                            (el_href e) (el_download e)) ks
  | Text _ => n
  end.

Definition set_checked (v : bool) (n : node) : node :=
  match n with
  | Elem e ks => Elem (mkEl (el_tag e) (el_id e) (el_type e) (el_value e) v
                            (el_href e) (el_download e)) ks
  | Text _ => n
  end.

Definition set_href (v : string) (n : node) : node :=
  match n with
  | Elem e ks => Elem (mkEl (el_tag e) (el_id e) (el_type e) (el_value e)
                            (el_checked e) v (el_download e)) ks
  | Text _ => n
  end.

Definition set_download (v : string) (n : node) : node :=
  match n with
  | Elem e ks => Elem (mkEl (el_tag e) (el_id e) (el_type e) (el_value e)
                            (el_checked e) (el_href e) v) ks
  | Text _ => n
  end.

(** [n.textContent = s] replaces the children by one text node (by none
    when [s] is empty). *)
Definition text_children (s : string) : list node :=
  if String.eqb s "" then [] else [Text s].

Definition set_textContent (s : string) (n : node) : node :=
  match n with
  | Elem e _ => Elem e (text_children s)
  | Text _ => Text s
  end.

Definition appendChild (parent child : node) : node :=
  match parent with
  | Elem e ks => Elem e (ks ++ [child])%list
  | Text _ => parent
  end.

(** The [textContent] getter: the text of all descendants, in order. *)
Fixpoint textContent (n : node) : string :=
  match n with
  | Text s => s
  | Elem _ ks =>
      (fix all (l : list node) : string :=
         match l with
         | [] => ""
         | k :: l' => textContent k +:+ all l'
         end) ks
  end.

Definition textContent_of (ks : list node) : string :=
  String.concat "" (map textContent ks).

(** The [input] elements below a list of nodes, in document order. *)
Fixpoint inputs_of (n : node) : list el :=
  match n with
  | Text _ => []
  | Elem e ks =>
      ((if String.eqb (el_tag e) "input" then [e] else []) ++
       (fix all (l : list node) : list el :=
          match l with
          | [] => []
          | k :: l' => inputs_of k ++ all l'
          end) ks)%list
  end.

Definition inputs_in (ks : list node) : list el := concat (map inputs_of ks).

(** An element of the page that the script reaches through
    [document.getElementById]. *)
Record element := mkElement {
  className : string;
  childNodes : list node
}.

Definition set_className (c : string) (e : element) : element :=
  mkElement c (childNodes e).

Definition set_childNodes (ks : list node) (e : element) : element :=
  mkElement (className e) ks.

Definition append (child : node) (e : element) : element :=
  mkElement (className e) (childNodes e ++ [child])%list.

(** ** Form definition registry (main.js, lines 5-38) *)

Record schema := mkSchema {
  dimensions : list string;
  metrics : list string
}.

Definition definitions : list (string * schema) :=
  [ ("admob", mkSchema
       ["DATE"; "AD_UNIT"; "FORMAT"; "COUNTRY"; "APP"; "PLATFORM";
        "PLACEMENT"; "AD_SOURCE"; "CREATIVE"; "BID_TYPE"]
       ["ESTIMATED_EARNINGS"; "IMPRESSIONS"; "IMPRESSION_RPM"; "CLICKS";
        "ACTIVE_VIEW_IMPRESSIONS"; "MATCHED_REQUESTS"; "SHOW_RATE";
        "CLICK_THROUGH_RATE"; "AD_REQUESTS"]);
    ("gam", mkSchema
       ["date"; "ad_unit_name"; "ad_unit_id"; "parent_ad_unit_id";
        "country_name"; "country_criteria_id"]
       ["impressions"; "revenue"]);
    ("applovin", mkSchema
       ["day"; "application"; "country"; "platform"; "package_name"; "size";
        "zone_id"; "ad_type"]
       ["revenue"; "views"; "impressions"; "clicks"]);
    ("chartboost", mkSchema
       ["day"; "app_id"; "app_name"; "country_code"; "platform";
        "ad_location"; "ad_type"; "campaign_type"]
       ["revenue"; "impressions"; "clicks"; "installs"; "ecpm"; "cpcv"; "ctr";
        "install_rate"; "video_completed"]);
    ("facebook", mkSchema
       ["placement"; "country"; "day"]
       ["revenue"]);
    ("fyber", mkSchema
       ["app_id"; "spot_id"; "day"; "country_code"; "content_id";
        "content_name"; "app_name"; "distributor_name"; "content_categories"]
       ["ad_requests"; "impressions"; "fill_rate"; "clicks"; "ctr"; "ecpm";
        "revenue"]);
    ("hyprmx", mkSchema
       ["placement"; "country"]
       []);
    ("inmobi", mkSchema
       ["country"; "countryId"; "placementId"; "placementName"]
       ["earnings"]) ].

(** ** Checkbox renderer (main.js, lines 41-62) *)

(** The nodes that [innerHTML = `<strong>${heading}</strong>`] parses to;
    the heading is one of two literals and holds no markup. *)
Definition strong (heading : string) : list node :=
  [Elem {| el_tag := "strong"; el_id := ""; el_type := ""; el_value := "";
           el_checked := false; el_href := ""; el_download := "" |}
        (text_children heading)].

(** The label built by one round of the [items.forEach] callback. *)
Definition checkbox_label (item : string) : node :=
  let label := createElement "label" in
  let checkbox := createElement "input" in
  let checkbox := set_type "checkbox" checkbox in
  let checkbox := set_value item checkbox in
  let checkbox := set_checked true checkbox in
  let label := appendChild label checkbox in
  let label :=
    appendChild label
      (createTextNode (" " +:+ JsString.replace_all item "_" " ")) in
  label.

Definition createCheckboxes (containerId : string) (items : list string)
    (doc : gmap string element) : gmap string element :=
  match doc !! containerId with
  | None => doc
  | Some container =>
      let type :=
        if JsString.endsWith containerId "-dimensions"
        then "dimensions" else "metrics" in
      let container :=
        set_childNodes
          (strong (JsString.toUpperCase (JsString.charAt0 type) +:+
                   JsString.slice1 type +:+ ":"))
          container in
      let container :=
        fold_left (fun container item => append (checkbox_label item) container)
                  items container in
      <[containerId := container]> doc
  end.

(** The population loop over [Object.entries(definitions)]. *)
Definition populate (doc : gmap string element) : gmap string element :=
  fold_left
    (fun doc entry =>
       let '(provider, cats) := entry in
       let doc := createCheckboxes (provider +:+ "-dimensions") (dimensions cats) doc in
       createCheckboxes (provider +:+ "-metrics") (metrics cats) doc)
    definitions doc.

(** ** JSON values (the decoded response body)

    A number carries its canonical text ([Number::toString]), which is all
    the script observes of it.  The fields of an object are its own
    properties, in enumeration order, each key once. *)

Inductive json :=
| JNull
| JBool (b : bool)
| JNum (text : string)
| JStr (s : string)
| JArr (items : list json)
| JObj (fields : list (string * json)).

(** A JavaScript value met by the script: [None] is [undefined]. *)
Abbreviation value := (option json).

Record js_error := JsError { message : string }.

Inductive completion (A : Type) :=
| Normal (a : A)
| Throw (e : js_error).
Arguments Normal {A} a.
Arguments Throw {A} e.

Definition nl : string := String "010"%char EmptyString.

Module Js.

(** [ToBoolean] *)
Definition truthy (v : value) : bool :=
  match v with
  | None => false
  | Some JNull => false
  | Some (JBool b) => b
  | Some (JNum t) => negb (String.eqb t "0") && negb (String.eqb t "NaN")
  | Some (JStr s) => negb (String.eqb s "")
  | Some (JArr _) => true
  | Some (JObj _) => true
  end.

(** [a || b] *)
Definition or (a b : value) : value := if truthy a then a else b.

Definition isArray (v : value) : bool :=
  match v with
  | Some (JArr _) => true
  | _ => false
  end.

Fixpoint assoc (p : string) (fields : list (string * json)) : value :=
  match fields with
  | [] => None
  | (k, v) :: rest => if String.eqb k p then Some v else assoc p rest
  end.

(** [j.p] on a value other than [null], for the property names the script
    reads ([data], [error], [length]; none of them is an array index). *)
Definition prop (j : json) (p : string) : value :=
  match j with
  | JNull => None
  | JBool _ => None
  | JNum _ => None
  | JStr s =>
      if String.eqb p "length"
      then Some (JNum (pretty (String.length s))) else None
  | JArr items =>
      if String.eqb p "length"
      then Some (JNum (pretty (length items))) else None
  | JObj fields => assoc p fields
  end.

(** [v.p]: reading a property of [null] or [undefined] raises a TypeError,
    whose message is the engine's ([null_read p]). *)
Definition get (null_read : string -> string) (v : value) (p : string)
    : completion value :=
  match v with
  | None => Throw (JsError (null_read p))
  | Some JNull => Throw (JsError (null_read p))
  | Some j => Normal (prop j p)
  end.

Fixpoint join (sep : string) (l : list string) : string :=
  match l with
  | [] => ""
  | [x] => x
  | x :: rest => x +:+ sep +:+ join sep rest
  end.

(** [ToString] of a decoded value.  An array prints as [join(",")], in
    which [null] elements print as the empty string.  An object prints
    through [Object.prototype.toString], unless it has a field [toString]
    of its own: a decoded field is no function and [valueOf] yields no
    primitive, so the conversion raises a TypeError, whose message is the
    engine's ([not_primitive]). *)
Fixpoint to_string_json (not_primitive : string) (j : json)
    : completion string :=
  match j with
  | JNull => Normal "null"
  | JBool true => Normal "true"
  | JBool false => Normal "false"
  | JNum t => Normal t
  | JStr s => Normal s
  | JArr items =>
      match
        (fix elements (l : list json) : completion (list string) :=
           match l with
           | [] => Normal []
           | x :: l' =>
               match (match x with
                      | JNull => Normal ""
                      | _ => to_string_json not_primitive x
                      end) with
               | Throw e => Throw e
               | Normal s =>
                   match elements l' with
                   | Throw e => Throw e
                   | Normal ss => Normal (s :: ss)
                   end
               end
           end) items
      with
      | Throw e => Throw e
      | Normal ss => Normal (join "," ss)
      end
  | JObj fields =>
      match assoc "toString" fields with
      | Some _ => Throw (JsError not_primitive)
      | None => Normal "[object Object]"
      end
  end.

Definition to_string (not_primitive : string) (v : value) : completion string :=
  match v with
  | None => Normal "undefined"
  | Some j => to_string_json not_primitive j
  end.

Definition hex_digit (n : nat) : ascii :=
  ascii_of_nat (if (n <? 10)%nat then 48 + n else 87 + n).

(** One code unit inside [QuoteJSONString]. *)
Definition quote_char (c : ascii) : string :=
  let n := nat_of_ascii c in
  if (n =? 8)%nat then "\b"
  else if (n =? 9)%nat then "\t"
  else if (n =? 10)%nat then "\n"
  else if (n =? 12)%nat then "\f"
  else if (n =? 13)%nat then "\r"
  else if (n =? 34)%nat then String "\" (String "034"%char "")
  else if (n =? 92)%nat then "\\"
  else if (n <? 32)%nat
       then "\u00" +:+ String (hex_digit (n / 16))
                           (String (hex_digit (n mod 16)) "")
  else String c "".

Fixpoint quote_body (s : string) : string :=
  match s with
  | EmptyString => ""
  | String c s' => quote_char c +:+ quote_body s'
  end.

Definition quote (s : string) : string :=
  String "034"%char (quote_body s +:+ String "034"%char "").

Definition finite (t : string) : bool :=
  negb (String.eqb t "Infinity" || String.eqb t "-Infinity"
        || String.eqb t "NaN").

(** [JSON.stringify(j, null, 2)] at the current indentation. *)
Fixpoint stringify (indent : string) (j : json) : string :=
  match j with
  | JNull => "null"
  | JBool true => "true"
  | JBool false => "false"
  | JNum t => if finite t then t else "null"
  | JStr s => quote s
  | JArr [] => "[]"
  | JArr items =>
      let inner := indent +:+ "  " in
      "[" +:+ nl +:+ inner +:+
      join ("," +:+ nl +:+ inner) (map (stringify inner) items) +:+
      nl +:+ indent +:+ "]"
  | JObj [] => "{}"
  | JObj fields =>
      let inner := indent +:+ "  " in
      "{" +:+ nl +:+ inner +:+
      join ("," +:+ nl +:+ inner)
           (map (fun kv => quote (fst kv) +:+ ": " +:+ stringify inner (snd kv))
                fields) +:+
      nl +:+ indent +:+ "}"
  end.

Definition stringify2 (j : json) : string := stringify "" j.

End Js.

(** ** Effects of the script

    A computation updates the elements reachable by id and completes
    normally or by throwing. *)

Definition M (A : Type) : Type :=
  gmap string element -> gmap string element * completion A.

Definition ret {A : Type} (a : A) : M A := fun doc => (doc, Normal a).

Definition bind {A B : Type} (c : M A) (k : A -> M B) : M B :=
  fun doc =>
    match c doc with
    | (doc', Normal a) => k a doc'
    | (doc', Throw e) => (doc', Throw e)
    end.

Definition lift {A : Type} (c : completion A) : M A := fun doc => (doc, c).

Definition throw {A : Type} (e : js_error) : M A := lift (Throw e).

(** [try { body } catch (error) { handler }] *)
Definition try_catch {A : Type} (body : M A) (handler : js_error -> M A) : M A :=
  fun doc =>
    match body doc with
    | (doc', Throw e) => handler e doc'
    | (doc', Normal a) => (doc', Normal a)
    end.

Declare Scope js_scope.
Delimit Scope js_scope with js.
Notation "x <- c ;; k" := (bind c (fun x => k))
  (at level 100, c at next level, right associativity) : js_scope.
Notation "c ;; k" := (bind c (fun _ => k))
  (at level 100, right associativity) : js_scope.

(** ** What the browser and the server contribute to a submission *)

Inductive pvalue :=
| PString (s : string)
| PArray (l : list string).

Record request := mkRequest {
  req_url : option string;
  req_method : string;
  req_headers : list (string * string);
  req_body : gmap string pvalue
}.

(** The outcome of [fetch]: the promise rejects (network failure), or a
    response arrives with its status and with what [response.json()]
    settles to (a decoded value, or the decoding error). *)
Inductive fetch_result :=
| Rejected (e : js_error)
| Response (status : Z) (body : completion json).

(** ** The form, as the submit handler reads it *)

(** An element below the form, with the ids of its ancestors. *)
Record control := mkControl {
  c_el : el;
  c_within : list string
}.

Record form_el := mkForm {
  form_id : string;
  dataset_endpoint : option string;
  form_descendants : list control
}.

Record host := mkHost {
  fetch : request -> fetch_result;
  createObjectURL : string -> string;
  null_read : string -> string;
  null_write : string -> string;
  not_primitive : string;
  invalid_selector : string -> string;
  querySelectorAll : string -> form_el -> completion (list control)
}.

(** [response.ok] *)
Definition ok (status : Z) : bool := (200 <=? status)%Z && (status <=? 299)%Z.

(** [form.querySelectorAll('input, select')] *)
Definition inputs_and_selects (form : form_el) : list control :=
  filter (fun c => bool_decide (el_tag (c_el c) = "input" \/ el_tag (c_el c) = "select"))
         (form_descendants form).

(** The [:checked] pseudo-class on an [input]. *)
Definition is_checked (e : el) : bool :=
  (String.eqb (el_type e) "checkbox" || String.eqb (el_type e) "radio")
  && el_checked e.

(** *** The selector [#<panel> input:checked]

    Lines 126-127 build the selector text from the provider.  When [panel]
    is a CSS identifier - here: a letter or an underscore, or a dash
    followed by one of them, and then letters, digits, dashes and
    underscores - the text is the id selector of [panel] followed by
    [input:checked].  When [panel] starts with a digit, [#<panel>] is no id
    selector, and [querySelectorAll] raises a SyntaxError.  Any other text
    (with a dot, a space, a colon, an escape, ...) is a different selector
    or none; what the engine answers for it is the host's
    [querySelectorAll]. *)

Definition ascii_letter (c : ascii) : bool :=
  let n := nat_of_ascii c in
  ((65 <=? n)%nat && (n <=? 90)%nat) || ((97 <=? n)%nat && (n <=? 122)%nat).

Definition ascii_digit (c : ascii) : bool :=
  let n := nat_of_ascii c in (48 <=? n)%nat && (n <=? 57)%nat.

Definition name_start (c : ascii) : bool := ascii_letter c || Ascii.eqb c "_".

Definition name_char (c : ascii) : bool :=
  name_start c || ascii_digit c || Ascii.eqb c "-".

Fixpoint name_chars (s : string) : bool :=
  match s with
  | EmptyString => true
  | String c s' => name_char c && name_chars s'
  end.

Definition css_identifier (s : string) : bool :=
  match s with
  | EmptyString => false
  | String c rest =>
      if name_start c then name_chars rest
      else if Ascii.eqb c "-" then
        match rest with
        | EmptyString => false
        | String d rest' => name_start d && name_chars rest'
        end
      else false
  end.

Definition starts_with_digit (s : string) : bool :=
  match s with
  | EmptyString => false
  | String c _ => ascii_digit c
  end.

(** The checked inputs below the element whose id is [panel]. *)
Definition checked_within (panel : string) (form : form_el) : list control :=
  filter (fun c => bool_decide (el_tag (c_el c) = "input")
                   && is_checked (c_el c)
                   && bool_decide (panel ∈ c_within c))
         (form_descendants form).

(** [form.querySelectorAll(`#${panel} input:checked`)] *)
Definition checked_inputs_in (h : host) (panel : string) (form : form_el)
    : completion (list control) :=
  let selector := "#" +:+ panel +:+ " input:checked" in
  if css_identifier panel then Normal (checked_within panel form)
  else if starts_with_digit panel then Throw (JsError (invalid_selector h selector))
  else querySelectorAll h selector form.

(** [Array.from(form.querySelectorAll(...)).map(cb => cb.value)] *)
Definition checked_values (h : host) (panel : string) (form : form_el)
    : completion (list string) :=
  match checked_inputs_in h panel form with
  | Throw e => Throw e
  | Normal checked => Normal (map (fun cb => el_value (c_el cb)) checked)
  end.

(** [payload[key] = v] on a plain object: the key [__proto__] reaches the
    prototype setter, which ignores a string. *)
Definition set_property (key : string) (v : pvalue) (o : gmap string pvalue)
    : gmap string pvalue :=
  if String.eqb key "__proto__" then o else <[key := v]> o.

Definition field_key (provider id : string) : string :=
  JsString.replace_all
    (JsString.replace_first id (provider +:+ "-") "") "-" "_".

(** main.js, lines 115-123: the payload after the loop over the inputs
    and selects. *)
Definition collect_fields (provider : string) (form : form_el)
    : gmap string pvalue :=
  let payload : gmap string pvalue := ∅ in
  fold_left
    (fun payload input =>
       if negb (String.eqb (el_type (c_el input)) "checkbox")
       then let key := field_key provider (el_id (c_el input)) in
            set_property key (PString (el_value (c_el input))) payload
       else payload)
    (inputs_and_selects form) payload.

(** main.js, lines 115-127: the payload object as the statements leave it,
    and how they complete.  A selector that is refused throws before the
    assignment it stands in. *)
Definition collect (h : host) (provider : string) (form : form_el)
    : gmap string pvalue * completion unit :=
  let payload := collect_fields provider form in
  match checked_values h (provider +:+ "-dimensions") form with
  | Throw e => (payload, Throw e)
  | Normal checked =>
      let payload := <["dimensions" := PArray checked]> payload in
      match checked_values h (provider +:+ "-metrics") form with
      | Throw e => (payload, Throw e)
      | Normal checked =>
          let payload := <["metrics" := PArray checked]> payload in
          (payload, Normal tt)
      end
  end.

(** ** Submission (main.js, lines 102-174) *)

(** [document.getElementById(id)]: the reference is the id under which the
    element is stored, [None] is [null]. *)
Definition getElementById (id : string) : M (option string) :=
  fun doc => (doc, Normal (match doc !! id with
                           | Some _ => Some id
                           | None => None
                           end)).

(** [ref.prop = ...], as the update [f] of the element: assigning through
    [null] raises a TypeError. *)
Definition assign (h : host) (ref : option string) (prop : string)
    (f : element -> element) : M unit :=
  match ref with
  | None => throw (JsError (null_write h prop))
  | Some id => fun doc => (alter f id doc, Normal tt)
  end.

Definition displayResults (h : host) (container : option string)
    (resultData : json) (filename : string) : M unit :=
  (assign h container "innerHTML" (set_childNodes []) ;;
   let blob := Js.stringify2 resultData in
   let url := createObjectURL h blob in
   let a := createElement "a" in
   let a := set_href url a in
   let a := set_download filename a in
   let a := set_textContent "Download Results (JSON)" a in
   assign h container "appendChild" (append a) ;;
   let pre := createElement "pre" in
   let pre := set_textContent (Js.stringify2 resultData) pre in
   assign h container "appendChild" (append pre))%js.

(** The submit listener of one form, run to the end of its [await]s.
    [event.preventDefault()] and [console.error(error)] leave the page as
    it is and are not part of the state. *)
Definition submit (h : host) (form : form_el) : M unit :=
  (let provider := JsString.replace_first (form_id form) "-form" "" in
   statusEl <- getElementById (provider +:+ "-status") ;;
   resultsEl <- getElementById (provider +:+ "-results") ;;
   let endpoint := dataset_endpoint form in
   assign h statusEl "className" (set_className "status loading") ;;
   assign h statusEl "textContent"
     (set_childNodes (text_children "Polling in progress... Please wait.")) ;;
   assign h resultsEl "innerHTML" (set_childNodes []) ;;
   let '(payload, assembled) := collect h provider form in
   lift assembled ;;
   try_catch
     (match fetch h (mkRequest endpoint "POST"
                       [("Content-Type", "application/json")] payload) with
      | Rejected e => throw e
      | Response status body =>
          result <- lift body ;;
          (if negb (ok status)
           then err <- lift (Js.get (null_read h) (Some result) "error") ;;
                msg <- lift (Js.to_string (not_primitive h)
                               (Js.or err
                                  (Some (JStr ("Server responded with status "
                                               +:+ pretty status))))) ;;
                throw (JsError msg)
           else ret tt) ;;
          assign h statusEl "className" (set_className "status success") ;;
          d <- lift (Js.get (null_read h) (Some result) "data") ;;
          let data := Js.or d (Some result) in
          rowCount <-
            (if Js.isArray data
             then lift (Js.get (null_read h) data "length")
             else dd <- lift (Js.get (null_read h) data "data") ;;
                  if Js.truthy dd
                  then dd' <- lift (Js.get (null_read h) data "data") ;;
                       lift (Js.get (null_read h) dd' "length")
                  else ret (Some (JNum "0"))) ;;
          count <- lift (Js.to_string (not_primitive h) rowCount) ;;
          assign h statusEl "textContent"
            (set_childNodes
               (text_children ("Polling successful! Fetched "
                               +:+ count +:+ " rows."))) ;;
          displayResults h resultsEl result (provider +:+ "_report.json")
      end)
     (fun error =>
        assign h statusEl "className" (set_className "status error") ;;
        assign h statusEl "textContent"
          (set_childNodes
             (text_children ("Polling failed: " +:+ message error))))
  )%js.

(** ** Tab switching (main.js, lines 83-99) *)

(** [classList.add], [classList.remove] and [classList.contains] *)
Definition classList_add (token : string) (cl : list string) : list string :=
  if bool_decide (token ∈ cl) then cl else (cl ++ [token])%list.

Definition classList_remove (token : string) (cl : list string) : list string :=
  filter (fun t => negb (String.eqb t token)) cl.

Definition classList_contains (token : string) (cl : list string) : bool :=
  bool_decide (token ∈ cl).

Record tab_button := mkButton {
  button_classList : list string;
  dataset_tab : option string
}.

Record tab_pane := mkPane {
  pane_id : string;
  pane_classList : list string
}.

(** The two node lists the script captures at load:
    [querySelectorAll('.tab-button')] and [querySelectorAll('.tab-pane')]. *)
Record tabs := mkTabs {
  tabButtons : list tab_button;
  tabPanes : list tab_pane
}.

(** [pane.id === button.dataset.tab]; a missing [data-tab] is [undefined]
    and equals no id. *)
Definition id_is_tab (pane : tab_pane) (button : tab_button) : bool :=
  match dataset_tab button with
  | Some tab => String.eqb (pane_id pane) tab
  | None => false
  end.

(** The click listener of the [k]-th tab button. *)
Definition click (k : nat) (t : tabs) : tabs :=
  match tabButtons t !! k with
  | None => t
  | Some button =>
      let buttons :=
        map (fun btn => mkButton (classList_remove "active" (button_classList btn))
                                 (dataset_tab btn))
            (tabButtons t) in
      let buttons :=
        alter (fun btn => mkButton (classList_add "active" (button_classList btn))
                                   (dataset_tab btn))
              k buttons in
      let panes :=
        map (fun pane =>
               if id_is_tab pane button
               then mkPane (pane_id pane)
                           (classList_add "active" (pane_classList pane))
               else mkPane (pane_id pane)
                           (classList_remove "active" (pane_classList pane)))
            (tabPanes t) in
      mkTabs buttons panes
  end.

Definition clicks (ks : list nat) (t : tabs) : tabs :=
  fold_left (fun t k => click k t) ks t.

Definition is_active (pane : tab_pane) : bool :=
  classList_contains "active" (pane_classList pane).

Definition active_panes (t : tabs) : list tab_pane :=
  filter (fun pane => is_active pane) (tabPanes t).

(** ** Dates

    A [Date] is its time value: milliseconds since the epoch, UTC.  The
    functions below follow ECMA-262 (Day, TimeWithinDay, YearFromTime,
    MonthFromTime, DateFromTime, MakeDay, MakeDate, LocalTime, UTC); the
    local time zone adjustment [LocalTZA] belongs to the host.  Time values
    stay inside the range on which [TimeClip] is the identity. *)

Module JsDate.

Open Scope Z_scope.

Definition msPerDay : Z := 86400000.

Definition Day (t : Z) : Z := t / msPerDay.

Definition TimeWithinDay (t : Z) : Z := t mod msPerDay.

(** Year, month (1-12) and day of the month of a day number, in the
    proleptic Gregorian calendar (eras of 400 years that start on March 1). *)
Definition civil_from_days (days : Z) : Z * Z * Z :=
  let z := days + 719468 in
  let era := z / 146097 in
  let doe := z - era * 146097 in
  let yoe := (doe - doe / 1460 + doe / 36524 - doe / 146096) / 365 in
  let y := yoe + era * 400 in
  let doy := doe - (365 * yoe + yoe / 4 - yoe / 100) in
  let mp := (5 * doy + 2) / 153 in
  let d := doy - (153 * mp + 2) / 5 + 1 in
  let m := if mp <? 10 then mp + 3 else mp - 9 in
  (if m <=? 2 then y + 1 else y, m, d).

(** The day number of a calendar date; [d] may lie outside the month. *)
Definition days_from_civil (y m d : Z) : Z :=
  let y := if m <=? 2 then y - 1 else y in
  let era := y / 400 in
  let yoe := y - era * 400 in
  let doy := (153 * (if 2 <? m then m - 3 else m + 9) + 2) / 5 + d - 1 in
  let doe := yoe * 365 + yoe / 4 - yoe / 100 + doy in
  era * 146097 + doe - 719468.

Definition YearFromTime (t : Z) : Z := fst (fst (civil_from_days (Day t))).

(** 0 is January. *)
Definition MonthFromTime (t : Z) : Z := snd (fst (civil_from_days (Day t))) - 1.

Definition DateFromTime (t : Z) : Z := snd (civil_from_days (Day t)).

Definition MakeDay (year month date : Z) : Z :=
  let ym := year + month / 12 in
  let mn := month mod 12 in
  days_from_civil ym (mn + 1) 1 + date - 1.

Definition MakeDate (day time : Z) : Z := day * msPerDay + time.

Definition LocalTime (LocalTZA : Z -> bool -> Z) (t : Z) : Z :=
  t + LocalTZA t true.

Definition UTC (LocalTZA : Z -> bool -> Z) (t : Z) : Z :=
  t - LocalTZA t false.

(** [date.getDate()] *)
Definition getDate (LocalTZA : Z -> bool -> Z) (t : Z) : Z :=
  DateFromTime (LocalTime LocalTZA t).

(** [date.setDate(dt)]: the new time value of [date]. *)
Definition setDate (LocalTZA : Z -> bool -> Z) (t dt : Z) : Z :=
  let lt := LocalTime LocalTZA t in
  let newDate :=
    MakeDate (MakeDay (YearFromTime lt) (MonthFromTime lt) dt)
             (TimeWithinDay lt) in
  UTC LocalTZA newDate.

Definition digit (n : Z) : ascii := ascii_of_nat (48 + Z.to_nat (n mod 10)).

Definition digits2 (n : Z) : string :=
  String (digit (n / 10)) (String (digit n) "").

Definition digits3 (n : Z) : string := String (digit (n / 100)) (digits2 n).

Definition digits4 (n : Z) : string := String (digit (n / 1000)) (digits3 n).

Definition digits6 (n : Z) : string :=
  String (digit (n / 100000)) (String (digit (n / 10000)) (digits4 n)).

(** The year of the ISO format: four digits from 0 to 9999, a sign and six
    digits otherwise. *)
Definition iso_year (y : Z) : string :=
  if (0 <=? y) && (y <=? 9999) then digits4 y
  else if y <? 0 then "-" +:+ digits6 (- y)
  else "+" +:+ digits6 y.

Definition iso_date (days : Z) : string :=
  let '(y, m, d) := civil_from_days days in
  iso_year y +:+ "-" +:+ digits2 m +:+ "-" +:+ digits2 d.

(** [date.toISOString()] *)
Definition toISOString (t : Z) : string :=
  let ms := TimeWithinDay t in
  iso_date (Day t) +:+ "T" +:+ digits2 (ms / 3600000) +:+ ":" +:+
  digits2 (ms / 60000 mod 60) +:+ ":" +:+ digits2 (ms / 1000 mod 60) +:+
  "." +:+ digits3 (ms mod 1000) +:+ "Z".

(** [s.split('T')[0]] *)
Fixpoint split_T_0 (s : string) : string :=
  match s with
  | EmptyString => EmptyString
  | String c s' => if Ascii.eqb c "T" then EmptyString else String c (split_T_0 s')
  end.

End JsDate.

(** ** The value of a date input

    Assigning to [value] on an [input] of type [date] runs the value
    sanitization of HTML: a string that is not a valid date string is
    replaced by the empty string.  A valid date string is a year of four or
    more digits, greater than 0, a dash, a month of two digits, a dash, and
    a day of two digits that the month has in that year. *)

Definition digit_value (c : ascii) : option Z :=
  let n := nat_of_ascii c in
  if (48 <=? n)%nat && (n <=? 57)%nat then Some (Z.of_nat (n - 48)) else None.

(** The number written by a string of digits, after [acc]. *)
Fixpoint number_from (acc : Z) (s : string) : option Z :=
  match s with
  | EmptyString => Some acc
  | String c s' =>
      match digit_value c with
      | Some d => number_from (10 * acc + d) s'
      | None => None
      end
  end.

Definition days_in_month (y m : Z) : Z :=
  if (m =? 2)%Z then
    if ((y mod 400 =? 0) || ((y mod 4 =? 0) && negb (y mod 100 =? 0)))%Z
    then 29%Z else 28%Z
  else if ((m =? 4) || (m =? 6) || (m =? 9) || (m =? 11))%Z then 30%Z
  else 31%Z.

(** What stands before the first dash of a string, and what follows it. *)
Fixpoint before_dash (s : string) : string :=
  match s with
  | EmptyString => EmptyString
  | String c s' => if Ascii.eqb c "-" then EmptyString else String c (before_dash s')
  end.

Fixpoint after_dash (s : string) : string :=
  match s with
  | EmptyString => EmptyString
  | String c s' => if Ascii.eqb c "-" then s' else after_dash s'
  end.

Definition valid_date_string (s : string) : bool :=
  let year := before_dash s in
  match number_from 0 year, after_dash s with
  | Some y, String m1 (String m2 (String sep (String d1 (String d2 EmptyString)))) =>
      match number_from 0 (String m1 (String m2 EmptyString)),
            number_from 0 (String d1 (String d2 EmptyString)) with
      | Some m, Some d =>
          (4 <=? String.length year)%nat && (0 <? y)%Z && Ascii.eqb sep "-"
          && (1 <=? m)%Z && (m <=? 12)%Z
          && (1 <=? d)%Z && (d <=? days_in_month y m)%Z
      | _, _ => false
      end
  | _, _ => false
  end.

Definition sanitize_date (v : string) : string :=
  if valid_date_string v then v else "".

Definition set_el_value (v : string) (e : el) : el :=
  mkEl (el_tag e) (el_id e) (el_type e) v (el_checked e) (el_href e)
       (el_download e).

(** [input.value = v] on a date input. *)
Definition set_date_value (v : string) (e : el) : el :=
  set_el_value (sanitize_date v) e.

(** ** Default dates (main.js, lines 65-80)

    [today] and [sevenDaysAgo] are the clock readings of the two
    [new Date()]; [page] lists the elements of the document in document
    order. *)

(** The selector [input[type="date"]]. *)
Definition is_date_input (e : el) : bool :=
  String.eqb (el_tag e) "input" && String.eqb (el_type e) "date".

Definition setDefaultDates (LocalTZA : Z -> bool -> Z) (today sevenDaysAgo : Z)
    (page : list el) : list el :=
  let sevenDaysAgo :=
    JsDate.setDate LocalTZA sevenDaysAgo (JsDate.getDate LocalTZA today - 7) in
  let formatDate := fun date => JsDate.split_T_0 (JsDate.toISOString date) in
  map (fun input =>
         if is_date_input input then
           if JsString.includes (el_id input) "-end-date"
           then set_date_value (formatDate today) input
           else if JsString.includes (el_id input) "-start-date"
           then set_date_value (formatDate sevenDaysAgo) input
           else input
         else input)
      page.

(** ** Observations used in the statements *)

(** The [label] elements among the children of a panel. *)
Definition is_label (n : node) : bool :=
  match n with
  | Elem e _ => String.eqb (el_tag e) "label"
  | Text _ => false
  end.

Definition labels_in (ks : list node) : list node :=
  filter (fun n => is_label n) ks.

(** What a panel shows for the field names [items]: one checked checkbox
    per name, carrying the name as its value, in a label whose text is a
    space and the name with its underscores turned into spaces. *)
Definition renders (items : list string) (ks : list node) : Prop :=
  let boxes := inputs_in ks in
  map el_value boxes = items /\
  Forall (fun box => el_type box = "checkbox" /\ el_checked box = true) boxes /\
  map textContent (labels_in ks)
    = map (fun item => " " +:+ JsString.replace_all item "_" " ") items /\
  length boxes = length items /\
  (forall box, box ∈ boxes -> el_value box ∈ items).

(** The calls of [createCheckboxes] made by the population loop, in order. *)
Definition render_plan : list (string * list string) :=
  concat (map (fun entry : string * schema =>
                 [(fst entry +:+ "-dimensions", dimensions (snd entry));
                  (fst entry +:+ "-metrics", metrics (snd entry))])
              definitions).

(** The heading of a panel, once the template of line 45 is evaluated. *)
Definition heading (containerId : string) : string :=
  if JsString.endsWith containerId "-dimensions" then "Dimensions:" else "Metrics:".

(** ** Sample pages *)

(** A page that holds the two panels of the provider [gam], with stale
    content. *)
Definition gam_page : gmap string element :=
  <["gam-dimensions" := mkElement "checkbox-group" [Text "stale"]]>
    (<["gam-metrics" := mkElement "checkbox-group" []]> ∅).

Definition sample_tabs : tabs :=
  mkTabs
    [mkButton ["tab-button"; "active"] (Some "admob");
     mkButton ["tab-button"] (Some "gam");
     mkButton ["tab-button"] (Some "fyber")]
    [mkPane "admob" ["tab-pane"; "active"];
     mkPane "gam" ["tab-pane"];
     mkPane "fyber" ["tab-pane"]].

(** The [admob] form: a date range, an account select, two rendered
    dimension checkboxes (one unchecked) and one metric checkbox. *)
Definition admob_form : form_el :=
  mkForm "admob-form" (Some "/poll/admob")
    [mkControl (mkEl "input" "admob-start-date" "date" "2024-03-01" false "" "") [];
     mkControl (mkEl "input" "admob-end-date" "date" "2024-03-08" false "" "") [];
     mkControl (mkEl "select" "admob-publisher-id" "select-one" "pub-1" false "" "") [];
     mkControl (mkEl "div" "admob-dimensions" "" "" false "" "") [];
     mkControl (mkEl "label" "" "" "" false "" "") ["admob-dimensions"];
     mkControl (mkEl "input" "" "checkbox" "DATE" true "" "") ["admob-dimensions"];
     mkControl (mkEl "label" "" "" "" false "" "") ["admob-dimensions"];
     mkControl (mkEl "input" "" "checkbox" "AD_UNIT" false "" "") ["admob-dimensions"];
     mkControl (mkEl "div" "admob-metrics" "" "" false "" "") [];
     mkControl (mkEl "label" "" "" "" false "" "") ["admob-metrics"];
     mkControl (mkEl "input" "" "checkbox" "CLICKS" true "" "") ["admob-metrics"]].


(** ** Observations on a submission *)

Definition provider_of (form : form_el) : string :=
  JsString.replace_first (form_id form) "-form" "".

(** The request that the submit listener of [form] sends, once the payload
    is assembled. *)
Definition request_of (h : host) (form : form_el) : request :=
  mkRequest (dataset_endpoint form) "POST"
    [("Content-Type", "application/json")]
    (fst (collect h (JsString.replace_first (form_id form) "-form" "") form)).


Definition status_class (form : form_el) (doc : gmap string element)
    : option string :=
  className <$> doc !! (provider_of form +:+ "-status").

Definition status_text (form : form_el) (doc : gmap string element)
    : option string :=
  (fun e => textContent_of (childNodes e))
    <$> doc !! (provider_of form +:+ "-status").

Definition results_nodes (form : form_el) (doc : gmap string element)
    : option (list node) :=
  childNodes <$> doc !! (provider_of form +:+ "-results").

(** The download link and the preformatted block of [displayResults]. *)
Definition download_link (url filename : string) : node :=
  Elem (mkEl "a" "" "" "" false url filename) [Text "Download Results (JSON)"].

Definition preformatted (text : string) : node :=
  Elem (mkEl "pre" "" "" "" false "" "") (text_children text).

(** What the awaited response settles a submission to: the text of the row
    count with the decoded body, or the error that the [catch] clause
    receives. *)
Definition settle (h : host) (res : fetch_result) : completion (string * json) :=
  match res with
  | Rejected e => Throw e
  | Response status (Throw e) => Throw e
  | Response status (Normal result) =>
      if negb (ok status) then
        match Js.get (null_read h) (Some result) "error" with
        | Throw e => Throw e
        | Normal err =>
            match Js.to_string (not_primitive h)
                    (Js.or err
                       (Some (JStr ("Server responded with status "
                                    +:+ pretty status)))) with
            | Throw e => Throw e
            | Normal msg => Throw (JsError msg)
            end
        end
      else
        match Js.get (null_read h) (Some result) "data" with
        | Throw e => Throw e
        | Normal d =>
            let data := Js.or d (Some result) in
            match
              (if Js.isArray data
               then Js.get (null_read h) data "length"
               else match Js.get (null_read h) data "data" with
                    | Throw e => Throw e
                    | Normal dd =>
                        if Js.truthy dd
                        then Js.get (null_read h) dd "length"
                        else Normal (Some (JNum "0"))
                    end)
            with
            | Throw e => Throw e
            | Normal rowCount =>
                match Js.to_string (not_primitive h) rowCount with
                | Throw e => Throw e
                | Normal count => Normal (count, result)
                end
            end
        end
  end.


(** A host whose server answers every request with [res]; the messages of
    the errors are Chrome's.  No sample below uses a selector that is left
    to the engine; this host finds nothing for one. *)
Definition answering (res : fetch_result) : host :=
  mkHost (fun _ => res)
         (fun _ => "blob:report")
         (fun p => "Cannot read properties of null (reading '" +:+ p +:+ "')")
         (fun p => "Cannot set properties of null (setting '" +:+ p +:+ "')")
         "Cannot convert object to primitive value"
         (fun selector =>
            "Failed to execute 'querySelectorAll' on 'Element': '"
            +:+ selector +:+ "' is not a valid selector.")
         (fun _ _ => Normal []).

(** A host without a network. *)
Definition offline : host := answering (Rejected (JsError "Failed to fetch")).

(** A page with the status and results elements of [admob]; a page whose
    results element is missing; a page with neither. *)
Definition admob_page : gmap string element :=
  <["admob-status" := mkElement "status" []]>
    (<["admob-results" := mkElement "results" [Text "previous"]]> ∅).

Definition page_without_results : gmap string element :=
  <["admob-status" := mkElement "status" []]> ∅.

Definition page_without_status : gmap string element :=
  <["admob-results" := mkElement "results" [Text "previous"]]> ∅.

(** Response bodies: [{"data": [{"a": 1}, {"a": 2}]}], [[1, 2, 3]],
    [{"ok": true}], [{"error": "quota exceeded"}] and
    [{"data": {"data": [1, 2]}}]. *)
Definition two_rows : json :=
  JObj [("data", JArr [JObj [("a", JNum "1")]; JObj [("a", JNum "2")]])].

Definition bare_array : json := JArr [JNum "1"; JNum "2"; JNum "3"].

Definition plain_object : json := JObj [("ok", JBool true)].

Definition quota_error : json := JObj [("error", JStr "quota exceeded")].




(** A form whose provider [1st] starts with a digit, on a page with its
    status and results elements. *)
Definition digit_form : form_el :=
  mkForm "1st-form" (Some "/poll/1st")
    [mkControl (mkEl "input" "1st-start-date" "date" "2024-03-01" false "" "") [];
     mkControl (mkEl "div" "1st-dimensions" "" "" false "" "") [];
     mkControl (mkEl "input" "" "checkbox" "DATE" true "" "") ["1st-dimensions"]].

Definition digit_page : gmap string element :=
  <["1st-status" := mkElement "status" []]>
    (<["1st-results" := mkElement "results" [Text "previous"]]> ∅).


(** ** Observations on the seeded dates *)

Definition is_digit (c : ascii) : bool :=
  let n := nat_of_ascii c in (48 <=? n)%nat && (n <=? 57)%nat.

(** The shape [YYYY-MM-DD]. *)
Definition yyyy_mm_dd (s : string) : bool :=
  match s with
  | String y1 (String y2 (String y3 (String y4 (String s1
      (String m1 (String m2 (String s2 (String d1 (String d2 EmptyString)))))))))
    => is_digit y1 && is_digit y2 && is_digit y3 && is_digit y4
       && Ascii.eqb s1 "-" && is_digit m1 && is_digit m2
       && Ascii.eqb s2 "-" && is_digit d1 && is_digit d2
  | _ => false
  end.

Fixpoint free_of_T (s : string) : bool :=
  match s with
  | EmptyString => true
  | String c s' => negb (Ascii.eqb c "T") && free_of_T s'
  end.

(** Two hosts: a zone two hours east of Greenwich all year, and Berlin
    around the start of summer time on 30 March 2025, 01:00 UTC. *)
Definition two_hours_east (t : Z) (isUTC : bool) : Z := 7200000.

Definition berlin_2025 (t : Z) (isUTC : bool) : Z :=
  let start := 1743296400000%Z in
  if isUTC
  then (if (t <? start)%Z then 3600000 else 7200000)%Z
  else (if (t <? start + 3600000)%Z then 3600000 else 7200000)%Z.

(** 14 November 2023, 22:13:20 UTC; and 30 March 2025, 23:30 UTC, which is
    01:30 on 31 March in Berlin. *)
Definition november_evening : Z := 1700000000000.

Definition march_night : Z := 1743377400000.

Definition date_inputs : list el :=
  [mkEl "input" "gam-start-date" "date" "" false "" "";
   mkEl "input" "gam-end-date" "date" "" false "" "";
   mkEl "input" "gam-report-date" "date" "2020-01-01" false "" "";
   mkEl "input" "gam-start-date-note" "text" "n/a" false "" "";
   mkEl "input" "range-start-date-to-end-date" "date" "" false "" ""].

(** Tabs whose third button names a pane that the page does not have, and
    whose fourth button has no [data-tab]. *)
Definition tabs_with_stray_buttons : tabs :=
  mkTabs
    [mkButton ["tab-button"; "active"] (Some "admob");
     mkButton ["tab-button"] (Some "gam");
     mkButton ["tab-button"] (Some "unity");
     mkButton ["tab-button"] None]
    [mkPane "admob" ["tab-pane"; "active"];
     mkPane "gam" ["tab-pane"]].



(** * Properties *)

(** ** Checkbox renderer *)

Lemma fold_append (f : string -> node) (items : list string) (c : element) :
  fold_left (fun c item => append (f item) c) items c
  = mkElement (className c) (childNodes c ++ map f items)%list.
Proof.
  revert c. induction items as [|item items IH]; intros c; simpl.
  - rewrite app_nil_r. by destruct c.
  - rewrite IH. simpl. by rewrite <- app_assoc.
Qed.

Lemma createCheckboxes_present containerId items (doc : gmap string element) c :
  doc !! containerId = Some c ->
  createCheckboxes containerId items doc
  = <[containerId :=
        mkElement (className c)
          (strong (heading containerId) ++ map checkbox_label items)%list]> doc.
Proof.
  intros Hc. unfold createCheckboxes, heading. rewrite Hc.
  rewrite fold_append. simpl.
  by destruct (JsString.endsWith containerId "-dimensions").
Qed.

Lemma createCheckboxes_absent containerId items (doc : gmap string element) :
  doc !! containerId = None -> createCheckboxes containerId items doc = doc.
Proof. intros Hc. unfold createCheckboxes. by rewrite Hc. Qed.

Lemma createCheckboxes_other containerId items (doc : gmap string element) id :
  containerId <> id ->
  createCheckboxes containerId items doc !! id = doc !! id.
Proof.
  intros Hne. unfold createCheckboxes.
  destruct (doc !! containerId); [|done]. by rewrite lookup_insert_ne.
Qed.

Lemma inputs_in_labels items :
  inputs_in (map checkbox_label items)
  = map (fun item => mkEl "input" "" "checkbox" item true "" "") items.
Proof.
  induction items as [|item items IH]; [done|].
  unfold inputs_in in *. simpl. by rewrite IH.
Qed.

Lemma inputs_in_panel h items :
  inputs_in (strong h ++ map checkbox_label items)%list
  = map (fun item => mkEl "input" "" "checkbox" item true "" "") items.
Proof.
  rewrite <- inputs_in_labels. unfold inputs_in, strong, text_children.
  by destruct (String.eqb h "").
Qed.

Lemma append_empty_r (s : string) : s +:+ "" = s.
Proof.
  induction s as [|c s IH]; [done|].
  change (String c (s +:+ "") = String c s). by f_equal.
Qed.

Lemma textContent_label item :
  textContent (checkbox_label item)
  = " " +:+ JsString.replace_all item "_" " ".
Proof.
  change (String " " (JsString.replace_all item "_" " " +:+ "")
          = String " " (JsString.replace_all item "_" " ")).
  by rewrite append_empty_r.
Qed.

Lemma labels_in_panel h items :
  map textContent (labels_in (strong h ++ map checkbox_label items)%list)
  = map (fun item => " " +:+ JsString.replace_all item "_" " ") items.
Proof.
  unfold labels_in, strong. simpl. rewrite filter_cons_False by (simpl; auto).
  induction items as [|item items IH]; [done|].
  cbn [map]. rewrite filter_cons_True by done.
  cbn [map]. rewrite IH. f_equal. apply textContent_label.
Qed.

Lemma panel_renders h items :
  renders items (strong h ++ map checkbox_label items)%list.
Proof.
  unfold renders. rewrite inputs_in_panel, labels_in_panel.
  repeat split.
  - induction items as [|? ? IH]; [done|]. simpl. by rewrite IH.
  - induction items; constructor; auto.
  - by rewrite length_map.
  - intros box [item [-> Hin]]%list_elem_of_fmap. done.
Qed.

Lemma populate_plan (doc : gmap string element) :
  populate doc
  = fold_left (fun doc r => createCheckboxes (fst r) (snd r) doc) render_plan doc.
Proof.
  unfold populate, render_plan, definitions.
  cbn [fold_left map concat app fst snd dimensions metrics]. reflexivity.
Qed.

Lemma plan_untouched (plan : list (string * list string))
    (doc : gmap string element) id :
  id ∉ map fst plan ->
  fold_left (fun doc r => createCheckboxes (fst r) (snd r) doc) plan doc !! id
  = doc !! id.
Proof.
  revert doc. induction plan as [|[id0 items0] plan IH]; intros doc Hid; [done|].
  simpl in *. rewrite IH.
  - apply createCheckboxes_other. intros ->. apply Hid. by left.
  - intros Hin. apply Hid. by right.
Qed.

Lemma plan_rendered (plan : list (string * list string))
    (doc : gmap string element) id items panel :
  NoDup (map fst plan) ->
  (id, items) ∈ plan ->
  doc !! id = Some panel ->
  fold_left (fun doc r => createCheckboxes (fst r) (snd r) doc) plan doc !! id
  = Some (mkElement (className panel)
            (strong (heading id) ++ map checkbox_label items)%list).
Proof.
  revert doc. induction plan as [|[id0 items0] plan IH]; intros doc Hnd Hin Hdoc.
  - by apply elem_of_nil in Hin.
  - simpl in *. apply NoDup_cons in Hnd as [Hfresh Hnd].
    apply elem_of_cons in Hin as [Heq|Hin].
    + inversion Heq; subst id0 items0.
      rewrite plan_untouched by done.
      rewrite (createCheckboxes_present _ _ _ _ Hdoc). apply lookup_insert_eq.
    + apply IH; [done..|].
      rewrite createCheckboxes_other; [done|].
      intros ->. apply Hfresh.
      change id with (fst (id, items)). apply list_elem_of_In, in_map.
      by apply list_elem_of_In.
Qed.

Lemma render_plan_NoDup : NoDup (map fst render_plan).
Proof. apply (bool_decide_unpack _). by vm_compute. Qed.

Lemma registry_in_plan provider cats :
  (provider, cats) ∈ definitions ->
  (provider +:+ "-dimensions", dimensions cats) ∈ render_plan /\
  (provider +:+ "-metrics", metrics cats) ∈ render_plan.
Proof.
  unfold render_plan. generalize definitions. intros defs Hin.
  induction defs as [|entry defs IH]; [by apply elem_of_nil in Hin|].
  cbn [map concat]. apply elem_of_cons in Hin as [<-|Hin].
  - split; apply list_elem_of_In; simpl; auto.
  - destruct (IH Hin) as [Hd Hm].
    split; apply elem_of_app; right; assumption.
Qed.

(** C8: after the population loop, for every provider of the registry, the
    dimensions panel and the metrics panel (when the page has them) show
    exactly one checkbox per field name of the schema list, in order: each
    is checked, carries the field name as its value, and its label reads
    the field name with underscores replaced by spaces (after the space
    that separates it from the box); so there are as many checkboxes as
    names and every rendered value is a name of the list. *)
Theorem populate_renders_registry (doc : gmap string element) provider cats :
  (provider, cats) ∈ definitions ->
  (forall panel,
     doc !! (provider +:+ "-dimensions") = Some panel ->
     exists panel',
       populate doc !! (provider +:+ "-dimensions") = Some panel' /\
       renders (dimensions cats) (childNodes panel')) /\
  (forall panel,
     doc !! (provider +:+ "-metrics") = Some panel ->
     exists panel',
       populate doc !! (provider +:+ "-metrics") = Some panel' /\
       renders (metrics cats) (childNodes panel')).
Proof.
  intros Hreg. destruct (registry_in_plan _ _ Hreg) as [Hd Hm].
  split; intros panel Hpanel; rewrite populate_plan;
    erewrite plan_rendered by eauto using render_plan_NoDup;
    eexists; (split; [reflexivity|]); apply panel_renders.
Qed.

Lemma populate_renders_registry_witness :
  (exists panel',
     populate gam_page !! "gam-dimensions" = Some panel' /\
     renders ["date"; "ad_unit_name"; "ad_unit_id"; "parent_ad_unit_id";
              "country_name"; "country_criteria_id"] (childNodes panel')) /\
  (exists panel',
     populate gam_page !! "gam-metrics" = Some panel' /\
     renders ["impressions"; "revenue"] (childNodes panel')).
Proof.
  assert (Hreg : ("gam", mkSchema
                    ["date"; "ad_unit_name"; "ad_unit_id"; "parent_ad_unit_id";
                     "country_name"; "country_criteria_id"]
                    ["impressions"; "revenue"]) ∈ definitions).
  { apply list_elem_of_In. simpl. auto. }
  destruct (populate_renders_registry gam_page _ _ Hreg) as [Hd Hm].
  split.
  - apply (Hd (mkElement "checkbox-group" [Text "stale"])). reflexivity.
  - apply (Hm (mkElement "checkbox-group" [])). reflexivity.
Defined.

(** C9: rendering the same panel from the same field list twice in a row
    leaves the page as one rendering does, since each rendering replaces
    the content of the panel. *)
Theorem createCheckboxes_idempotent containerId items
    (doc : gmap string element) :
  createCheckboxes containerId items (createCheckboxes containerId items doc)
  = createCheckboxes containerId items doc.
Proof.
  destruct (doc !! containerId) as [panel|] eqn:Hpanel.
  - rewrite (createCheckboxes_present _ _ doc panel Hpanel).
    erewrite createCheckboxes_present by apply lookup_insert_eq.
    simpl. apply insert_insert_eq.
  - by rewrite !(createCheckboxes_absent _ _ doc Hpanel).
Qed.

(** ** Tab switching *)

Lemma classList_add_contains token cl :
  classList_contains token (classList_add token cl) = true.
Proof.
  unfold classList_contains, classList_add.
  destruct (bool_decide (token ∈ cl)) eqn:Hin; [done|].
  apply bool_decide_eq_true, elem_of_app. right. by left.
Qed.

Lemma classList_remove_contains token cl :
  classList_contains token (classList_remove token cl) = false.
Proof.
  unfold classList_contains, classList_remove.
  apply bool_decide_eq_false. intros [Hne _]%list_elem_of_filter.
  by rewrite String.eqb_refl in Hne.
Qed.

Lemma map_lookup {A B : Type} (f : A -> B) (l : list A) (i : nat) :
  map f l !! i = f <$> l !! i.
Proof. exact (list_lookup_fmap f l i). Qed.

Lemma click_pane_ids k t :
  map pane_id (tabPanes (click k t)) = map pane_id (tabPanes t).
Proof.
  unfold click. destruct (tabButtons t !! k) as [button|]; [|done].
  simpl. rewrite map_map. apply map_ext. intros pane.
  by destruct (id_is_tab pane button).
Qed.

Lemma click_button_tabs k t :
  map dataset_tab (tabButtons (click k t)) = map dataset_tab (tabButtons t).
Proof.
  unfold click. destruct (tabButtons t !! k) as [button|] eqn:Hk; [|done].
  simpl. apply list_eq. intros i.
  rewrite !map_lookup, list_lookup_alter.
  case_decide as Hi.
  - subst i. rewrite map_lookup. by destruct (tabButtons t !! k).
  - rewrite map_lookup. by destruct (tabButtons t !! i).
Qed.

Lemma clicks_snoc ks k t : clicks (ks ++ [k]) t = click k (clicks ks t).
Proof. unfold clicks. by rewrite fold_left_app. Qed.

Lemma clicks_pane_ids ks t :
  map pane_id (tabPanes (clicks ks t)) = map pane_id (tabPanes t).
Proof.
  induction ks as [|k ks IH] using rev_ind; [done|].
  by rewrite clicks_snoc, click_pane_ids.
Qed.

Lemma clicks_button_tabs ks t :
  map dataset_tab (tabButtons (clicks ks t)) = map dataset_tab (tabButtons t).
Proof.
  induction ks as [|k ks IH] using rev_ind; [done|].
  by rewrite clicks_snoc, click_button_tabs.
Qed.

(** After a click, the active panes are the panes whose id is the [data-tab]
    of the clicked button. *)
Lemma click_active_panes k t button :
  tabButtons t !! k = Some button ->
  map pane_id (active_panes (click k t))
  = map pane_id (filter (fun pane => id_is_tab pane button) (tabPanes t)).
Proof.
  intros Hk. unfold active_panes, click. rewrite Hk. simpl.
  induction (tabPanes t) as [|pane panes IH]; [done|].
  cbn [map]. destruct (id_is_tab pane button) eqn:Hid.
  - rewrite filter_cons_True
      by (unfold is_active; simpl; by rewrite classList_add_contains).
    rewrite (filter_cons_True _ pane) by (by rewrite Hid).
    cbn [map]. by rewrite IH.
  - rewrite filter_cons_False.
    + by rewrite (filter_cons_False _ pane) by (by apply Is_true_false_2).
    + apply Is_true_false_2. unfold is_active. cbn [pane_classList].
      apply classList_remove_contains.
Qed.

Lemma one_pane_per_id (panes : list tab_pane) button tab :
  NoDup (map pane_id panes) ->
  dataset_tab button = Some tab ->
  tab ∈ map pane_id panes ->
  map pane_id (filter (fun pane => id_is_tab pane button) panes) = [tab].
Proof.
  intros Hnd Htab. unfold id_is_tab. rewrite Htab. clear Htab.
  induction panes as [|pane panes IH]; intros Hin.
  - by apply elem_of_nil in Hin.
  - cbn [map] in *. apply NoDup_cons in Hnd as [Hfresh Hnd].
    destruct (String.eqb (pane_id pane) tab) eqn:Heq.
    + apply String.eqb_eq in Heq. subst tab.
      rewrite filter_cons_True by (by rewrite String.eqb_refl).
      cbn [map]. f_equal.
      assert (Hnone : forall l : list tab_pane,
                 pane_id pane ∉ map pane_id l ->
                 filter (fun q => String.eqb (pane_id q) (pane_id pane)) l = []).
      { induction l as [|q l IHl]; intros Hq; [done|].
        cbn [map] in Hq. apply not_elem_of_cons in Hq as [Hne Hq].
        rewrite filter_cons_False; [by apply IHl|].
        intros Hq'. apply Is_true_eq_true, String.eqb_eq in Hq'. congruence. }
      by rewrite Hnone.
    + rewrite filter_cons_False by (by apply Is_true_false_2).
      apply IH; [done|].
      apply elem_of_cons in Hin as [->|Hin]; [|done].
      by rewrite String.eqb_refl in Heq.
Qed.

(** C7: from a page with exactly one active pane, whose panes have distinct
    ids and whose tab buttons each name one of the panes, any sequence of
    clicks on tab buttons leaves exactly one pane active, and after at
    least one click it is the pane named by the button clicked last. *)
Theorem tab_clicks_one_active (t : tabs) (ks : list nat) :
  NoDup (map pane_id (tabPanes t)) ->
  (forall button, button ∈ tabButtons t ->
     exists pane, pane ∈ tabPanes t /\ dataset_tab button = Some (pane_id pane)) ->
  length (active_panes t) = 1%nat ->
  Forall (fun k => (k < length (tabButtons t))%nat) ks ->
  length (active_panes (clicks ks t)) = 1%nat /\
  (forall k button,
     last ks = Some k -> tabButtons t !! k = Some button ->
     exists pane,
       active_panes (clicks ks t) = [pane] /\
       dataset_tab button = Some (pane_id pane)).
Proof.
  intros Hnd Hnames Hone Hks.
  destruct ks as [|k ks _] using rev_ind; [by split|].
  rewrite Forall_app, Forall_singleton in Hks. destruct Hks as [_ Hk].
  apply lookup_lt_is_Some in Hk as [button Hbutton].
  destruct (Hnames button) as (pane & Hpane & Htab);
    [by eapply list_elem_of_lookup_2|].
  assert (exists button',
             tabButtons (clicks ks t) !! k = Some button' /\
             dataset_tab button' = Some (pane_id pane)) as (button' & Hk' & Htab').
  { pose proof (clicks_button_tabs ks t) as Heq.
    apply (f_equal (fun l => l !! k)) in Heq.
    rewrite !map_lookup, Hbutton in Heq.
    destruct (tabButtons (clicks ks t) !! k) as [button'|]; [|done].
    exists button'. split; [done|]. simpl in Heq. congruence. }
  assert (map pane_id (active_panes (clicks (ks ++ [k]) t)) = [pane_id pane])
    as Hactive.
  { rewrite clicks_snoc, (click_active_panes _ _ _ Hk').
    apply one_pane_per_id; [by rewrite clicks_pane_ids|done|].
    rewrite clicks_pane_ids. apply list_elem_of_In, in_map.
    by apply list_elem_of_In. }
  destruct (active_panes (clicks (ks ++ [k]) t)) as [|p [|? ?]]; try done.
  split; [done|]. intros k0 button0 Hlast Hbutton0.
  rewrite last_snoc in Hlast. injection Hlast as <-.
  rewrite Hbutton in Hbutton0. injection Hbutton0 as <-.
  exists p. split; [done|]. cbn [map] in Hactive. congruence.
Qed.

Lemma tab_clicks_one_active_witness :
  length (active_panes (clicks [2; 0; 1]%nat sample_tabs)) = 1%nat /\
  (forall k button,
     last [2; 0; 1]%nat = Some k -> tabButtons sample_tabs !! k = Some button ->
     exists pane,
       active_panes (clicks [2; 0; 1]%nat sample_tabs) = [pane] /\
       dataset_tab button = Some (pane_id pane)).
Proof.
  apply (tab_clicks_one_active sample_tabs [2; 0; 1]%nat).
  - apply (bool_decide_unpack _). vm_compute. exact I.
  - intros button Hin. simpl in Hin.
    apply elem_of_cons in Hin as [->|Hin];
      [exists (mkPane "admob" ["tab-pane"; "active"]); split;
         [apply list_elem_of_In; simpl; auto | reflexivity]|].
    apply elem_of_cons in Hin as [->|Hin];
      [exists (mkPane "gam" ["tab-pane"]); split;
         [apply list_elem_of_In; simpl; auto | reflexivity]|].
    apply elem_of_cons in Hin as [->|Hin];
      [exists (mkPane "fyber" ["tab-pane"]); split;
         [apply list_elem_of_In; simpl; auto | reflexivity]|].
    by apply elem_of_nil in Hin.
  - reflexivity.
  - repeat constructor.
Defined.

(** ** Payload assembly *)



Lemma replace_first_unfold s pat rep :
  JsString.replace_first s pat rep
  = if String.prefix pat s then rep +:+ JsString.skip (String.length pat) s
    else match s with
         | EmptyString => EmptyString
         | String c s' => String c (JsString.replace_first s' pat rep)
         end.
Proof. by destruct s. Qed.



Lemma fold_inputs_other provider (l : list control) (m : gmap string pvalue) k :
  (forall input, input ∈ l -> el_type (c_el input) <> "checkbox" ->
                 field_key provider (el_id (c_el input)) <> k) ->
  fold_left
    (fun payload input =>
       if negb (String.eqb (el_type (c_el input)) "checkbox")
       then let key := field_key provider (el_id (c_el input)) in
            set_property key (PString (el_value (c_el input))) payload
       else payload) l m !! k
  = m !! k.
Proof.
  revert m. induction l as [|input l IH]; intros m Hother; [done|].
  cbn [fold_left]. rewrite IH.
  - destruct (String.eqb (el_type (c_el input)) "checkbox") eqn:Htype; [done|].
    cbn [negb]. unfold set_property.
    destruct (String.eqb _ "__proto__"); [done|].
    apply lookup_insert_ne, Hother; [by left|]. by apply String.eqb_neq.
  - intros input' Hin. apply Hother. by right.
Qed.




(** On every path, the keys other than the two arrays are those of the
    loop over the inputs and selects. *)
Lemma collect_other_keys h provider form k :
  k <> "dimensions" -> k <> "metrics" ->
  fst (collect h provider form) !! k = collect_fields provider form !! k.
Proof.
  intros Hd Hm. unfold collect.
  destruct (checked_values h (provider +:+ "-dimensions") form); [|done].
  destruct (checked_values h (provider +:+ "-metrics") form); cbn [fst].
  - by rewrite !lookup_insert_ne.
  - by rewrite lookup_insert_ne.
Qed.





(** ** Submission *)

Lemma status_results_distinct provider :
  provider +:+ "-status" <> provider +:+ "-results".
Proof. intros Heq. by apply String.app_inj in Heq. Qed.

Ltac alter_lookups :=
  repeat first
    [ rewrite lookup_alter_eq
    | rewrite lookup_alter_ne
        by first [ apply status_results_distinct
                 | apply not_eq_sym, status_results_distinct ] ].

(** Closes a branch of the listener: the page it ends with is the chain of
    updates made on the way, read back at the two elements. *)
Ltac read_page Hs Hr :=
  eexists; split; [reflexivity|]; split;
  [ intros ? ? ?; by rewrite !lookup_alter_ne
  | alter_lookups; rewrite Hs, Hr;
    match goal with s : element, r : element |- _ => by destruct s, r end ].



(** The page after a submission whose payload cannot be assembled (lines
    126-127): the exception leaves the listener, the status element stays
    in the loading state. *)
Lemma submit_refused h form (doc : gmap string element) s r0 e :
  doc !! (provider_of form +:+ "-status") = Some s ->
  doc !! (provider_of form +:+ "-results") = Some r0 ->
  snd (collect h (provider_of form) form) = Throw e ->
  exists doc',
    submit h form doc = (doc', Throw e) /\
    (forall k, k <> provider_of form +:+ "-status" ->
               k <> provider_of form +:+ "-results" -> doc' !! k = doc !! k) /\
    doc' !! (provider_of form +:+ "-status")
    = Some (mkElement "status loading"
              [Text "Polling in progress... Please wait."]) /\
    doc' !! (provider_of form +:+ "-results")
    = Some (mkElement (className r0) []).
Proof.
  intros Hs Hr Hcollect. unfold provider_of in *.
  cbv [submit bind ret lift throw try_catch getElementById assign].
  rewrite Hs, Hr.
  set (provider := JsString.replace_first (form_id form) "-form" "") in *.
  destruct (collect h provider form) as [payload assembled].
  cbn [snd] in Hcollect. subst assembled.
  eexists; split; [reflexivity|]; split;
    [intros ? ? ?; by rewrite !lookup_alter_ne|].
  alter_lookups. rewrite Hs, Hr. by destruct s, r0.
Qed.

(** The page after a submission whose status and results elements exist
    and whose payload is assembled. *)
Lemma submit_outcome h form (doc : gmap string element) s r0 :
  doc !! (provider_of form +:+ "-status") = Some s ->
  doc !! (provider_of form +:+ "-results") = Some r0 ->
  snd (collect h (provider_of form) form) = Normal tt ->
  exists doc',
    submit h form doc = (doc', Normal tt) /\
    (forall k, k <> provider_of form +:+ "-status" ->
               k <> provider_of form +:+ "-results" -> doc' !! k = doc !! k) /\
    match settle h (fetch h (request_of h form)) with
    | Throw e =>
        doc' !! (provider_of form +:+ "-status")
        = Some (mkElement "status error"
                  [Text ("Polling failed: " +:+ message e)]) /\
        doc' !! (provider_of form +:+ "-results")
        = Some (mkElement (className r0) [])
    | Normal (count, result) =>
        doc' !! (provider_of form +:+ "-status")
        = Some (mkElement "status success"
                  [Text ("Polling successful! Fetched " +:+ count +:+ " rows.")]) /\
        doc' !! (provider_of form +:+ "-results")
        = Some (mkElement (className r0)
                  [download_link (createObjectURL h (Js.stringify2 result))
                                 (provider_of form +:+ "_report.json");
                   preformatted (Js.stringify2 result)])
    end.
Proof.
  intros Hs Hr Hcollect. unfold provider_of, request_of in *.
  cbv [submit bind ret lift throw try_catch getElementById assign displayResults].
  rewrite Hs, Hr. unfold settle.
  set (provider := JsString.replace_first (form_id form) "-form" "") in *.
  destruct (collect h provider form) as [payload assembled].
  cbn [fst snd] in *. subst assembled.
  destruct (fetch h _) as [e|status [result|e]];
    [read_page Hs Hr| |read_page Hs Hr].
  destruct (ok status); cbn [negb].
  - destruct (Js.get (null_read h) (Some result) "data") as [d|e];
      [|read_page Hs Hr].
    set (data := Js.or d (Some result)).
    destruct (Js.isArray data).
    + destruct (Js.get (null_read h) data "length") as [rowCount|e];
        [|read_page Hs Hr].
      destruct (Js.to_string (not_primitive h) rowCount); read_page Hs Hr.
    + destruct (Js.get (null_read h) data "data") as [dd|e];
        [|read_page Hs Hr].
      destruct (Js.truthy dd).
      * destruct (Js.get (null_read h) dd "length") as [rowCount|e];
          [|read_page Hs Hr].
        destruct (Js.to_string (not_primitive h) rowCount); read_page Hs Hr.
      * destruct (Js.to_string (not_primitive h) (Some (JNum "0")));
          read_page Hs Hr.
  - destruct (Js.get (null_read h) (Some result) "error") as [err|e];
      [|read_page Hs Hr].
    destruct (Js.to_string (not_primitive h) _); read_page Hs Hr.
Qed.

(** What a submission shows does not depend on what the status and results
    elements held before, the class of the results element apart. *)
Lemma submit_display h form :
  exists shown rows,
    forall (doc : gmap string element) s r0,
      doc !! (provider_of form +:+ "-status") = Some s ->
      doc !! (provider_of form +:+ "-results") = Some r0 ->
      fst (submit h form doc) !! (provider_of form +:+ "-status") = Some shown /\
      fst (submit h form doc) !! (provider_of form +:+ "-results")
      = Some (mkElement (className r0) rows) /\
      (forall k, k <> provider_of form +:+ "-status" ->
                 k <> provider_of form +:+ "-results" ->
                 fst (submit h form doc) !! k = doc !! k).
Proof.
  destruct (snd (collect h (provider_of form) form)) as [[]|e] eqn:Hcollect.
  - destruct (settle h (fetch h (request_of h form))) as [[count result]|e]
      eqn:Hsettle.
    + eexists _, _. intros doc s r0 Hs Hr.
      destruct (submit_outcome h form doc s r0 Hs Hr Hcollect)
        as (doc' & -> & Hother & Hpage).
      rewrite Hsettle in Hpage. destruct Hpage as [Hstatus Hresults].
      cbn [fst]. split; [exact Hstatus|]. split; [exact Hresults|exact Hother].
    + eexists _, _. intros doc s r0 Hs Hr.
      destruct (submit_outcome h form doc s r0 Hs Hr Hcollect)
        as (doc' & -> & Hother & Hpage).
      rewrite Hsettle in Hpage. destruct Hpage as [Hstatus Hresults].
      cbn [fst]. split; [exact Hstatus|]. split; [exact Hresults|exact Hother].
  - eexists _, _. intros doc s r0 Hs Hr.
    destruct (submit_refused h form doc s r0 e Hs Hr Hcollect)
      as (doc' & -> & Hother & Hstatus & Hresults).
    cbn [fst]. split; [exact Hstatus|]. split; [exact Hresults|exact Hother].
Qed.






(** The second scenario of C5, evaluated: a bare array of three elements. *)
Example bare_array_three_rows :
  let doc' := fst (submit (answering (Response 200 (Normal bare_array)))
                          admob_form admob_page) in
  status_text admob_form doc' = Some "Polling successful! Fetched 3 rows." /\
  results_nodes admob_form doc'
  = Some [download_link "blob:report" "admob_report.json";
          preformatted "[
  1,
  2,
  3
]"].
Proof. split; by vm_compute. Qed.










(** The fallback, evaluated: a 502 response whose body is [{"ok": true}]. *)
Example failure_falls_back_to_status :
  status_text admob_form
    (fst (submit (answering (Response 502 (Normal plain_object)))
                 admob_form admob_page))
  = Some "Polling failed: Server responded with status 502".
Proof. by vm_compute. Qed.

(** ** Missing elements *)

(** [createCheckboxes] returns at once when the panel is missing
    ([createCheckboxes_absent]).  The submit listener has no such guard:
    without the status element it throws on line 111 before anything is
    done. *)
Lemma submit_missing_status h form (doc : gmap string element) :
  doc !! (provider_of form +:+ "-status") = None ->
  submit h form doc = (doc, Throw (JsError (null_write h "className"))).
Proof.
  intros Hs. unfold provider_of in Hs.
  cbv [submit bind ret lift throw try_catch getElementById assign].
  rewrite Hs. by destruct (doc !! _).
Qed.

(** Without the results element it throws on line 113, and leaves the
    status element in the loading state. *)
Lemma submit_missing_results h form (doc : gmap string element) s :
  doc !! (provider_of form +:+ "-status") = Some s ->
  doc !! (provider_of form +:+ "-results") = None ->
  exists doc',
    submit h form doc = (doc', Throw (JsError (null_write h "innerHTML"))) /\
    status_class form doc' = Some "status loading" /\
    status_text form doc' = Some "Polling in progress... Please wait.".
Proof.
  intros Hs Hr. unfold provider_of, status_class, status_text in *.
  cbv [submit bind ret lift throw try_catch getElementById assign].
  rewrite Hs, Hr. eexists. split; [reflexivity|].
  rewrite !lookup_alter_eq, Hs. by destruct s.
Qed.

(** C3 fails on the submit listener: on a page without the results element
    of the form, a submission changes the status element and throws; on a
    page without the status element it throws at once. *)
Theorem submit_throws_on_missing_element :
  (let '(doc', outcome) :=
     submit (answering (Response 200 (Normal two_rows))) admob_form
            page_without_results in
   outcome
   = Throw (JsError "Cannot set properties of null (setting 'innerHTML')") /\
   status_class admob_form doc' = Some "status loading" /\
   status_text admob_form doc' = Some "Polling in progress... Please wait." /\
   doc' <> page_without_results) /\
  submit (answering (Response 200 (Normal two_rows))) admob_form
         page_without_status
  = (page_without_status,
     Throw (JsError "Cannot set properties of null (setting 'className')")).
Proof.
  split.
  - destruct (submit_missing_results
                (answering (Response 200 (Normal two_rows))) admob_form
                page_without_results (mkElement "status" []))
      as (doc' & -> & Hclass & Htext); [done..|].
    repeat split; try done.
    intros ->. by vm_compute in Hclass.
  - by apply submit_missing_status.
Qed.

(** The same listener on a form whose provider starts with a digit: the
    selector of line 126 is refused, the SyntaxError leaves the listener
    before the request is made, and the status stays in the loading
    state. *)
Example refused_selector_leaves_loading :
  let '(doc', outcome) :=
    submit (answering (Response 200 (Normal two_rows))) digit_form digit_page in
  outcome
  = Throw (JsError "Failed to execute 'querySelectorAll' on 'Element': '#1st-dimensions input:checked' is not a valid selector.") /\
  status_class digit_form doc' = Some "status loading" /\
  status_text digit_form doc' = Some "Polling in progress... Please wait." /\
  results_nodes digit_form doc' = Some [].
Proof. by vm_compute. Qed.

(** ** Default dates *)

Section Calendar.

Import JsDate.
Local Open Scope Z_scope.

Lemma yoe_doy_bounds doe :
  0 <= doe < 146097 ->
  let yoe := (doe - doe / 1460 + doe / 36524 - doe / 146096) / 365 in
  let doy := doe - (365 * yoe + yoe / 4 - yoe / 100) in
  0 <= yoe <= 399 /\ 0 <= doy <= 365.
Proof. intros H. cbv zeta. Z.div_mod_to_equations. lia. Qed.

(** Day 365 of a year that starts in March is a 29 February: the year that
    has started in January is a leap year. *)
Lemma leap_day doe :
  0 <= doe < 146097 ->
  let yoe := (doe - doe / 1460 + doe / 36524 - doe / 146096) / 365 in
  let doy := doe - (365 * yoe + yoe / 4 - yoe / 100) in
  doy = 365 ->
  (yoe + 1) mod 4 = 0 /\ ((yoe + 1) mod 100 <> 0 \/ (yoe + 1) mod 400 = 0).
Proof. intros H. cbv zeta. Z.div_mod_to_equations. lia. Qed.

Lemma leap_shift y era :
  ((y + era * 400) mod 400 =? 0)
  || (((y + era * 400) mod 4 =? 0) && negb ((y + era * 400) mod 100 =? 0))
  = ((y mod 400 =? 0) || ((y mod 4 =? 0) && negb (y mod 100 =? 0))).
Proof.
  replace ((y + era * 400) mod 400) with (y mod 400)
    by (Z.div_mod_to_equations; lia).
  replace ((y + era * 400) mod 4) with (y mod 4)
    by (Z.div_mod_to_equations; lia).
  replace ((y + era * 400) mod 100) with (y mod 100)
    by (Z.div_mod_to_equations; lia).
  done.
Qed.

(** The date of a day number is a date of the calendar: a month of 1-12 and
    a day that the month has in that year. *)
Lemma civil_from_days_valid days :
  1 <= snd (fst (civil_from_days days)) <= 12 /\
  1 <= snd (civil_from_days days)
    <= days_in_month (fst (fst (civil_from_days days)))
                     (snd (fst (civil_from_days days))).
Proof.
  unfold civil_from_days.
  set (z := days + 719468).
  set (era := z / 146097).
  set (doe := z - era * 146097).
  assert (Hdoe : 0 <= doe < 146097).
  { subst doe era. pose proof (Z.mod_pos_bound z 146097 eq_refl) as Hm.
    rewrite Z.mod_eq in Hm by lia. lia. }
  destruct (yoe_doy_bounds doe Hdoe) as [Hyoe Hdoy]. cbv zeta in Hyoe, Hdoy.
  pose proof (leap_day doe Hdoe) as Hleap. cbv zeta in Hleap.
  set (yoe := (doe - doe / 1460 + doe / 36524 - doe / 146096) / 365) in *.
  set (doy := doe - (365 * yoe + yoe / 4 - yoe / 100)) in *.
  set (mp := (5 * doy + 2) / 153).
  assert (Hmp : 0 <= mp <= 11) by (subst mp; Z.div_mod_to_equations; lia).
  cbn [fst snd].
  assert (Hcases : mp = 0 \/ mp = 1 \/ mp = 2 \/ mp = 3 \/ mp = 4 \/ mp = 5 \/
                   mp = 6 \/ mp = 7 \/ mp = 8 \/ mp = 9 \/ mp = 10 \/ mp = 11)
    by lia.
  assert (Hmpdef : mp = (5 * doy + 2) / 153) by done.
  clearbody mp doy yoe era. clear Hdoe doe z.
  destruct Hcases as [Hc|[Hc|[Hc|[Hc|[Hc|[Hc|[Hc|[Hc|[Hc|[Hc|[Hc|Hc]]]]]]]]]]];
    subst mp;
    repeat match goal with
      | |- context [Z.ltb ?a ?b] => destruct (Z.ltb_spec a b); try lia
      | |- context [Z.leb ?a ?b] => destruct (Z.leb_spec a b); try lia
      end;
    match goal with
    | |- context [days_in_month ?y ?m] =>
        let m' := eval vm_compute in m in replace m with m' by lia
    end;
    unfold days_in_month; cbn [Z.eqb Pos.eqb orb];
    try (split; [lia|]; Z.div_mod_to_equations; lia).
  split; [lia|].
  replace (yoe + era * 400 + 1) with (yoe + 1 + era * 400) by lia.
  rewrite leap_shift.
  destruct (((yoe + 1) mod 400 =? 0)
            || (((yoe + 1) mod 4 =? 0) && negb ((yoe + 1) mod 100 =? 0)))
    eqn:Hl.
  - clear Hleap Hl. Z.div_mod_to_equations. lia.
  - assert (doy <> 365).
    { intros Hd. destruct (Hleap Hd) as [H4 H100].
      apply orb_false_iff in Hl as [Hl400 Hl4].
      apply Z.eqb_neq in Hl400. rewrite H4 in Hl4. cbn in Hl4.
      apply negb_false_iff, Z.eqb_eq in Hl4. destruct H100; congruence. }
    clear Hleap Hl. Z.div_mod_to_equations. lia.
Qed.

(** The month of a day number lies in 1-12, and the day number is that of
    the first of its month plus the day of the month minus one. *)
Lemma civil_from_days_spec days :
  1 <= snd (fst (civil_from_days days)) <= 12 /\
  days_from_civil (fst (fst (civil_from_days days)))
                  (snd (fst (civil_from_days days))) 1
  + snd (civil_from_days days) - 1 = days.
Proof.
  unfold civil_from_days.
  set (z := days + 719468).
  set (era := z / 146097).
  set (doe := z - era * 146097).
  assert (Hdoe : 0 <= doe < 146097).
  { subst doe era. pose proof (Z.mod_pos_bound z 146097 eq_refl) as Hm.
    rewrite Z.mod_eq in Hm by lia. lia. }
  destruct (yoe_doy_bounds doe Hdoe) as [Hyoe Hdoy]. cbv zeta in Hyoe, Hdoy.
  set (yoe := (doe - doe / 1460 + doe / 36524 - doe / 146096) / 365) in *.
  set (doy := doe - (365 * yoe + yoe / 4 - yoe / 100)) in *.
  set (mp := (5 * doy + 2) / 153).
  assert (Hmp : 0 <= mp <= 11) by (subst mp; Z.div_mod_to_equations; lia).
  assert (Hera : (yoe + era * 400) / 400 = era).
  { rewrite Z.div_add by lia. rewrite Z.div_small by lia. lia. }
  cbn [fst snd]. unfold days_from_civil.
  destruct (mp <? 10) eqn:Hlt; [apply Z.ltb_lt in Hlt|apply Z.ltb_ge in Hlt].
  - replace (mp + 3 <=? 2) with false by (symmetry; apply Z.leb_gt; lia).
    replace (2 <? mp + 3) with true by (symmetry; apply Z.ltb_lt; lia).
    rewrite Hera. split; [lia|].
    replace (mp + 3 - 3) with mp by lia.
    replace (yoe + era * 400 - era * 400) with yoe by lia.
    subst doy doe z. lia.
  - replace (mp - 9 <=? 2) with true by (symmetry; apply Z.leb_le; lia).
    replace (2 <? mp - 9) with false by (symmetry; apply Z.ltb_ge; lia).
    replace (yoe + era * 400 + 1 - 1) with (yoe + era * 400) by lia.
    rewrite Hera. split; [lia|].
    replace (mp - 9 + 9) with mp by lia.
    replace (yoe + era * 400 - era * 400) with yoe by lia.
    subst doy doe z. lia.
Qed.

Lemma MakeDay_same_month t dt :
  MakeDay (YearFromTime t) (MonthFromTime t) dt = Day t - DateFromTime t + dt.
Proof.
  unfold MakeDay, YearFromTime, MonthFromTime, DateFromTime.
  destruct (civil_from_days_spec (Day t)) as [Hm Hday].
  set (m := snd (fst (civil_from_days (Day t)))) in *.
  rewrite Z.div_small by lia. rewrite Z.mod_small by lia.
  replace (m - 1 + 1) with m by lia. rewrite Z.add_0_r. lia.
Qed.

Lemma Day_shift t n : Day (t + n * msPerDay) = Day t + n.
Proof. unfold Day, msPerDay. by rewrite Z.div_add. Qed.

Lemma day_time t : Day t * msPerDay + TimeWithinDay t = t.
Proof.
  unfold Day, TimeWithinDay, msPerDay.
  pose proof (Z.div_mod t 86400000). lia.
Qed.

(** In a zone whose offset is the same at the instants involved, on one
    calendar day, [setDate(getDate() - 7)] moves back seven days. *)
Lemma setDate_seven_days_back LocalTZA off today sevenDaysAgo :
  LocalTZA today true = off ->
  LocalTZA sevenDaysAgo true = off ->
  LocalTZA (sevenDaysAgo + off - 7 * msPerDay) false = off ->
  Day (today + off) = Day (sevenDaysAgo + off) ->
  setDate LocalTZA sevenDaysAgo (getDate LocalTZA today - 7)
  = sevenDaysAgo - 7 * msPerDay.
Proof.
  intros Htoday Hago Hback Hday.
  unfold setDate, getDate, LocalTime, UTC, MakeDate.
  assert (Hdate : DateFromTime (today + off) = DateFromTime (sevenDaysAgo + off))
    by (unfold DateFromTime; by rewrite Hday).
  rewrite Htoday, Hago, MakeDay_same_month, Hdate.
  set (lt := sevenDaysAgo + off) in *.
  replace ((Day lt - DateFromTime lt + (DateFromTime lt - 7)) * msPerDay
           + TimeWithinDay lt)
    with (lt - 7 * msPerDay) by (pose proof (day_time lt); lia).
  rewrite Hback. lia.
Qed.

End Calendar.

Section DateFormat.

Import JsDate.

Lemma digit_cases n :
  exists k, (k < 10)%nat /\ digit n = ascii_of_nat (48 + k).
Proof.
  exists (Z.to_nat (n mod 10)). split; [|done].
  pose proof (Z.mod_pos_bound n 10 eq_refl). lia.
Qed.

Lemma digit_is_digit n : is_digit (digit n) = true.
Proof.
  destruct (digit_cases n) as (k & Hk & ->).
  do 10 (destruct k as [|k]; [reflexivity|]). lia.
Qed.

Lemma digit_not_T n : Ascii.eqb (digit n) "T" = false.
Proof.
  destruct (digit_cases n) as (k & Hk & ->).
  do 10 (destruct k as [|k]; [reflexivity|]). lia.
Qed.

Lemma split_T_0_app s rest :
  free_of_T s = true -> split_T_0 (s +:+ String "T" rest) = s.
Proof.
  induction s as [|c s IH]; intros Hfree.
  - reflexivity.
  - cbn [free_of_T] in Hfree. apply andb_true_iff in Hfree as [Hc Hs].
    change (split_T_0 (String c (s +:+ String "T" rest)) = String c s).
    cbn [split_T_0]. apply negb_true_iff in Hc. rewrite Hc.
    by rewrite IH.
Qed.

Lemma iso_date_free_of_T days : free_of_T (iso_date days) = true.
Proof.
  unfold iso_date. destruct (civil_from_days days) as [[y m] d].
  unfold iso_year.
  destruct ((0 <=? y)%Z && (y <=? 9999)%Z); [|destruct (y <? 0)%Z];
    cbv [digits6 digits4 digits3 digits2 String.append free_of_T];
    by rewrite !digit_not_T.
Qed.

(** [formatDate], for any date: the UTC calendar date. *)
Lemma formatDate_iso_date t :
  split_T_0 (toISOString t) = iso_date (Day t).
Proof.
  unfold toISOString.
  change (iso_date (Day t) +:+ "T" +:+ ?rest)
    with (iso_date (Day t) +:+ String "T" rest).
  apply split_T_0_app, iso_date_free_of_T.
Qed.

Lemma iso_date_yyyy_mm_dd days :
  (0 <= fst (fst (civil_from_days days)) <= 9999)%Z ->
  yyyy_mm_dd (iso_date days) = true.
Proof.
  unfold iso_date. destruct (civil_from_days days) as [[y m] d].
  cbn [fst]. intros Hy. unfold iso_year.
  replace ((0 <=? y)%Z && (y <=? 9999)%Z) with true
    by (symmetry; apply andb_true_iff; split; apply Z.leb_le; lia).
  cbv [digits4 digits3 digits2 String.append yyyy_mm_dd].
  by rewrite !digit_is_digit.
Qed.

End DateFormat.

Section DateValue.

Import JsDate.
Local Open Scope Z_scope.

Lemma digit_not_dash n : Ascii.eqb (digit n) "-" = false.
Proof.
  destruct (digit_cases n) as (k & Hk & ->).
  do 10 (destruct k as [|k]; [reflexivity|]). lia.
Qed.

Lemma digit_value_digit n : digit_value (digit n) = Some (n mod 10).
Proof.
  unfold digit, digit_value.
  pose proof (Z.mod_pos_bound n 10 eq_refl) as Hn.
  rewrite nat_ascii_embedding by lia.
  replace ((48 <=? 48 + Z.to_nat (n mod 10))%nat) with true
    by (symmetry; apply Nat.leb_le; lia).
  replace ((48 + Z.to_nat (n mod 10) <=? 57)%nat) with true
    by (symmetry; apply Nat.leb_le; lia).
  cbn [andb]. f_equal. lia.
Qed.

(** A date of the years 1-9999, as [toISOString] prints it, is a valid date
    string: a date input keeps it. *)
Lemma sanitize_iso_date days :
  1 <= fst (fst (civil_from_days days)) <= 9999 ->
  sanitize_date (iso_date days) = iso_date days.
Proof.
  intros Hy. unfold sanitize_date.
  assert (Hvalid : valid_date_string (iso_date days) = true); [|by rewrite Hvalid].
  destruct (civil_from_days_valid days) as [Hm Hd]. unfold iso_date.
  destruct (civil_from_days days) as [[y m] d]. cbn [fst snd] in *.
  unfold iso_year.
  replace ((0 <=? y) && (y <=? 9999)) with true
    by (symmetry; apply andb_true_iff; split; apply Z.leb_le; lia).
  assert (Hdim : days_in_month y m <= 31)
    by (unfold days_in_month; repeat case_match; lia).
  cbv [digits4 digits3 digits2 String.append valid_date_string].
  cbn [before_dash after_dash]. rewrite !digit_not_dash.
  cbn [Ascii.eqb Bool.eqb before_dash after_dash number_from String.length].
  rewrite !digit_value_digit.
  replace (10 * (10 * (10 * (10 * 0 + (y / 1000) mod 10) + (y / 100) mod 10)
                 + (y / 10) mod 10) + y mod 10) with y
    by (Z.div_mod_to_equations; lia).
  replace (10 * (10 * 0 + (m / 10) mod 10) + m mod 10) with m
    by (Z.div_mod_to_equations; lia).
  replace (10 * (10 * 0 + (d / 10) mod 10) + d mod 10) with d
    by (Z.div_mod_to_equations; lia).
  repeat (apply andb_true_iff; split);
    first [reflexivity | apply Z.ltb_lt; lia | apply Z.leb_le; lia].
Qed.

(** What a date input holds once [formatDate(date)] is assigned to it, for
    a date of the years 1-9999. *)
Lemma seeded_value t :
  1 <= YearFromTime t <= 9999 ->
  sanitize_date (split_T_0 (toISOString t)) = iso_date (Day t).
Proof.
  intros Hyear. rewrite formatDate_iso_date. apply sanitize_iso_date.
  exact Hyear.
Qed.

End DateValue.

(** C2, as the script has it.  Let the two clock readings fall on one
    calendar day, in UTC and in local time, let the offset of the local
    zone be the same now and seven days earlier, and let the years involved
    lie in 1-9999.  Then after the seeding every date-typed input whose id
    contains [-end-date] holds the current UTC date, every date-typed
    input whose id contains [-start-date] but not [-end-date] holds the
    date seven days earlier, both in the form YYYY-MM-DD, and every other
    element is left as it was. *)
Theorem setDefaultDates_seeds LocalTZA off today sevenDaysAgo
    (page : list el) i input :
  LocalTZA today true = off ->
  LocalTZA sevenDaysAgo true = off ->
  LocalTZA (sevenDaysAgo + off - 7 * JsDate.msPerDay)%Z false = off ->
  JsDate.Day today = JsDate.Day sevenDaysAgo ->
  JsDate.Day (today + off) = JsDate.Day (sevenDaysAgo + off) ->
  (1 <= JsDate.YearFromTime today <= 9999)%Z ->
  (1 <= JsDate.YearFromTime (today - 7 * JsDate.msPerDay) <= 9999)%Z ->
  page !! i = Some input ->
  exists input',
    setDefaultDates LocalTZA today sevenDaysAgo page !! i = Some input' /\
    (is_date_input input = true ->
     JsString.includes (el_id input) "-end-date" = true ->
     input' = set_el_value (JsDate.iso_date (JsDate.Day today)) input /\
     yyyy_mm_dd (el_value input') = true) /\
    (is_date_input input = true ->
     JsString.includes (el_id input) "-end-date" = false ->
     JsString.includes (el_id input) "-start-date" = true ->
     input' = set_el_value (JsDate.iso_date (JsDate.Day today - 7)) input /\
     yyyy_mm_dd (el_value input') = true) /\
    (is_date_input input = false \/
     (JsString.includes (el_id input) "-end-date" = false /\
      JsString.includes (el_id input) "-start-date" = false) ->
     input' = input).
Proof.
  intros Htoday Hago Hback Hutc Hlocal Hyear Hyear7 Hinput.
  unfold setDefaultDates. rewrite map_lookup, Hinput.
  eexists. split; [reflexivity|].
  rewrite (setDate_seven_days_back _ off) by assumption.
  rewrite !formatDate_iso_date.
  replace (JsDate.Day (sevenDaysAgo - 7 * JsDate.msPerDay))
    with (JsDate.Day today - 7)%Z
    by (rewrite Hutc;
        replace (sevenDaysAgo - 7 * JsDate.msPerDay)%Z
          with (sevenDaysAgo + (-7) * JsDate.msPerDay)%Z by lia;
        rewrite Day_shift; lia).
  unfold JsDate.YearFromTime in Hyear, Hyear7.
  replace (today - 7 * JsDate.msPerDay)%Z
    with (today + (-7) * JsDate.msPerDay)%Z in Hyear7 by lia.
  rewrite Day_shift in Hyear7.
  replace (JsDate.Day today + -7)%Z with (JsDate.Day today - 7)%Z in Hyear7 by lia.
  unfold set_date_value. rewrite !sanitize_iso_date by assumption.
  split; [|split].
  - intros -> ->. split; [done|]. apply iso_date_yyyy_mm_dd. lia.
  - intros -> -> ->. split; [done|]. apply iso_date_yyyy_mm_dd. lia.
  - intros [->|[-> ->]]; [done|]. by destruct (is_date_input input).
Qed.

Lemma setDefaultDates_seeds_witness :
  exists input',
    setDefaultDates two_hours_east november_evening november_evening
                    date_inputs !! 0%nat = Some input' /\
    (is_date_input (mkEl "input" "gam-start-date" "date" "" false "" "") = true ->
     JsString.includes "gam-start-date" "-end-date" = false ->
     JsString.includes "gam-start-date" "-start-date" = true ->
     input' = mkEl "input" "gam-start-date" "date" "2023-11-07" false "" "" /\
     yyyy_mm_dd (el_value input') = true).
Proof.
  destruct (setDefaultDates_seeds two_hours_east 7200000 november_evening
              november_evening date_inputs 0
              (mkEl "input" "gam-start-date" "date" "" false "" ""))
    as (input' & Hrun & _ & Hstart & _).
  - reflexivity.
  - reflexivity.
  - reflexivity.
  - reflexivity.
  - reflexivity.
  - split; by vm_compute.
  - split; by vm_compute.
  - reflexivity.
  - exists input'. split; [exact Hrun|exact Hstart].
Defined.

(** Against C2 as stated: an input whose id contains both markers holds the
    current date, not the date seven days earlier; and in Berlin, at 01:30
    on 31 March 2025, the start date is six days before the end date. *)
Lemma seeding_counterexample :
  map el_value
      (setDefaultDates two_hours_east november_evening november_evening
                       date_inputs)
  = ["2023-11-07"; "2023-11-14"; "2020-01-01"; "n/a"; "2023-11-14"] /\
  JsString.includes "range-start-date-to-end-date" "-start-date" = true /\
  JsDate.iso_date (JsDate.Day november_evening - 7) = "2023-11-07" /\
  map el_value
      (setDefaultDates berlin_2025 march_night march_night date_inputs)
  = ["2025-03-24"; "2025-03-30"; "2020-01-01"; "n/a"; "2025-03-30"] /\
  JsDate.iso_date (JsDate.Day march_night) = "2025-03-30" /\
  JsDate.iso_date (JsDate.Day march_night - 7) = "2025-03-23".
Proof. repeat split; by vm_compute. Qed.

(** ** The platform functions on known values *)

Example toISOString_known :
  JsDate.toISOString 0 = "1970-01-01T00:00:00.000Z" /\
  JsDate.toISOString (-1) = "1969-12-31T23:59:59.999Z" /\
  JsDate.toISOString 951782400000 = "2000-02-29T00:00:00.000Z" /\
  JsDate.toISOString 1700000000000 = "2023-11-14T22:13:20.000Z" /\
  JsDate.toISOString 253402300799999 = "9999-12-31T23:59:59.999Z" /\
  JsDate.toISOString 253402300800000 = "+010000-01-01T00:00:00.000Z".
Proof. repeat split; by vm_compute. Qed.

(** [setDate] with a day of the month below 1 reaches into the month
    before: from 3 March 2024 (a leap year), day 3 - 7 is 25 February. *)
Example setDate_crosses_month :
  JsDate.toISOString
    (JsDate.setDate (fun _ _ => 0%Z) 1709460000000
       (JsDate.getDate (fun _ _ => 0%Z) 1709460000000 - 7))
  = "2024-02-25T10:00:00.000Z".
Proof. by vm_compute. Qed.

(** The value sanitization of a date input: 29 February exists in 2024 and
    not in 2023, the year 0 does not exist, a year may have five digits;
    the date that [toISOString] prints for the year 10000 is refused, and a
    date input seeded at that instant holds the empty string. *)
Example date_values_known :
  valid_date_string "2024-02-29" = true /\
  valid_date_string "2023-02-29" = false /\
  valid_date_string "0000-01-01" = false /\
  valid_date_string "12024-01-01" = true /\
  valid_date_string "2024-1-01" = false /\
  JsDate.iso_date (JsDate.Day 253402300800000) = "+010000-01-01" /\
  map el_value
      (setDefaultDates (fun _ _ => 0%Z) 253402300800000 253402300800000
                       date_inputs)
  = ["9999-12-25"; ""; "2020-01-01"; "n/a"; ""].
Proof. repeat split; by vm_compute. Qed.

Example string_methods_known :
  JsString.endsWith "admob-dimensions" "-dimensions" = true /\
  JsString.endsWith "admob-metrics" "-dimensions" = false /\
  JsString.includes "gam-end-date" "-end-date" = true /\
  JsString.includes "gam-end" "-end-date" = false /\
  JsString.replace_first "admob-form" "-form" "" = "admob" /\
  JsString.replace_first "in-form-form" "-form" "" = "in-form" /\
  JsString.replace_all "AD_UNIT_ID" "_" " " = "AD UNIT ID" /\
  field_key "admob" "admob-start-date" = "start_date" /\
  field_key "admob" "x-admob-y" = "x_y".
Proof. repeat split; by vm_compute. Qed.

Example to_string_known :
  Js.to_string "TypeError" None = Normal "undefined" /\
  Js.to_string "TypeError"
    (Some (JArr [JNum "1"; JNull; JStr "a"; JArr [JBool true]]))
  = Normal "1,,a,true" /\
  Js.to_string "TypeError" (Some (JObj [("a", JNum "1")]))
  = Normal "[object Object]" /\
  Js.to_string "TypeError" (Some (JObj [("toString", JNull)]))
  = Throw (JsError "TypeError") /\
  Js.to_string "TypeError"
    (Some (JArr [JNum "1"; JObj [("valueOf", JNum "2"); ("toString", JStr "x")]]))
  = Throw (JsError "TypeError") /\
  Js.truthy (Some (JStr "")) = false /\
  Js.truthy (Some (JArr [])) = true /\
  Js.truthy (Some (JNum "0")) = false.
Proof. repeat split; by vm_compute. Qed.


(** * Further properties *)

(** ** Tab switching: the buttons, the other classes, repeated clicks *)

Lemma classList_remove_add token cl :
  classList_remove token (classList_add token cl) = classList_remove token cl.
Proof.
  unfold classList_add, classList_remove.
  destruct (bool_decide (token ∈ cl)); [done|].
  rewrite filter_app, filter_cons_False, filter_nil, app_nil_r; [done|].
  rewrite String.eqb_refl. simpl. auto.
Qed.

Lemma classList_remove_remove token cl :
  classList_remove token (classList_remove token cl) = classList_remove token cl.
Proof.
  unfold classList_remove. induction cl as [|t cl IH]; [done|].
  destruct (String.eqb t token) eqn:Ht.
  - rewrite filter_cons_False by (rewrite Ht; simpl; auto). exact IH.
  - rewrite !filter_cons_True by (by rewrite Ht). by rewrite IH.
Qed.

Lemma classList_add_add token cl :
  classList_add token (classList_add token cl) = classList_add token cl.
Proof.
  unfold classList_add at 1.
  pose proof (classList_add_contains token cl) as Hin.
  unfold classList_contains in Hin. by rewrite Hin.
Qed.

(** X1: after a click on the [k]-th tab button, that button and no other tab
    button carries the active marker, whatever the markers were before. *)
Theorem click_marks_clicked_button k t i button' :
  (k < length (tabButtons t))%nat ->
  tabButtons (click k t) !! i = Some button' ->
  classList_contains "active" (button_classList button') = true <-> i = k.
Proof.
  intros [button Hk]%lookup_lt_is_Some. unfold click. rewrite Hk.
  cbn [tabButtons]. rewrite list_lookup_alter.
  case_decide as Hi.
  - subst i. rewrite map_lookup, Hk. intros [= <-]. cbn [button_classList].
    by rewrite classList_add_contains.
  - rewrite map_lookup. destruct (tabButtons t !! i); [|done].
    intros [= <-]. cbn [button_classList].
    rewrite classList_remove_contains. split; [done|]. intros ->. done.
Qed.

Lemma click_marks_clicked_button_witness :
  classList_contains "active" (button_classList (mkButton ["tab-button"; "active"] (Some "gam")))
  = true <-> 1%nat = 1%nat.
Proof.
  apply (click_marks_clicked_button 1 sample_tabs 1).
  - simpl. lia.
  - reflexivity.
Defined.

(** X2: a click changes nothing but the active marker: every pane keeps its id
    and its other classes, in order, and every tab button keeps its
    [data-tab] and its other classes; so the two node lists of the script
    stay what they were. *)
Theorem click_keeps_other_classes k t :
  map (fun pane => (pane_id pane, classList_remove "active" (pane_classList pane)))
      (tabPanes (click k t))
  = map (fun pane => (pane_id pane, classList_remove "active" (pane_classList pane)))
        (tabPanes t) /\
  map (fun btn => (dataset_tab btn, classList_remove "active" (button_classList btn)))
      (tabButtons (click k t))
  = map (fun btn => (dataset_tab btn, classList_remove "active" (button_classList btn)))
        (tabButtons t).
Proof.
  unfold click. destruct (tabButtons t !! k) as [button|] eqn:Hk; [|done].
  cbn [tabPanes tabButtons]. split.
  - rewrite map_map. apply map_ext. intros pane.
    destruct (id_is_tab pane button); cbn [pane_id pane_classList].
    + by rewrite classList_remove_add.
    + by rewrite classList_remove_remove.
  - apply list_eq. intros i. rewrite !map_lookup, list_lookup_alter.
    case_decide as Hi.
    + subst i. rewrite map_lookup, Hk. cbn [fmap option_fmap option_map dataset_tab button_classList].
      by rewrite classList_remove_add, classList_remove_remove.
    + rewrite map_lookup. destruct (tabButtons t !! i); [|done]. cbn [fmap option_fmap option_map dataset_tab button_classList].
      by rewrite classList_remove_remove.
Qed.

(** X3: clicking the same tab button twice in a row leaves the page as one
    click does. *)
Theorem click_idempotent k t : click k (click k t) = click k t.
Proof.
  destruct (tabButtons t !! k) as [button|] eqn:Hk;
    [|unfold click; by rewrite !Hk].
  assert (Hclicked : click k t
            = mkTabs
                (alter (fun btn => mkButton (classList_add "active" (button_classList btn))
                                            (dataset_tab btn)) k
                   (map (fun btn => mkButton (classList_remove "active" (button_classList btn))
                                             (dataset_tab btn)) (tabButtons t)))
                (map (fun pane =>
                        if id_is_tab pane button
                        then mkPane (pane_id pane)
                               (classList_add "active" (pane_classList pane))
                        else mkPane (pane_id pane)
                               (classList_remove "active" (pane_classList pane)))
                     (tabPanes t)))
    by (unfold click; by rewrite Hk).
  rewrite Hclicked. unfold click at 1. cbn [tabButtons tabPanes].
  rewrite list_lookup_alter. case_decide; [|done].
  rewrite map_lookup, Hk. cbn [fmap option_fmap option_map].
  f_equal.
  - apply list_eq. intros i. rewrite !list_lookup_alter.
    case_decide as Hi.
    + subst i. rewrite !map_lookup, list_lookup_alter.
      case_decide; [|done]. rewrite map_lookup, Hk. cbn [fmap option_fmap option_map dataset_tab button_classList].
      by rewrite classList_remove_add, classList_remove_remove.
    + rewrite !map_lookup, list_lookup_alter.
      case_decide; [done|]. rewrite map_lookup.
      destruct (tabButtons t !! i); [|done]. cbn [fmap option_fmap option_map dataset_tab button_classList].
      by rewrite classList_remove_remove.
  - rewrite map_map. apply map_ext. intros pane.
    unfold id_is_tab. cbn [dataset_tab].
    destruct (dataset_tab button) as [tab|].
    + destruct (String.eqb (pane_id pane) tab) eqn:Hid; cbn [pane_id]; rewrite Hid;
        cbn [pane_id pane_classList].
      * by rewrite classList_add_add.
      * by rewrite classList_remove_remove.
    + cbn [pane_id pane_classList]. by rewrite classList_remove_remove.
Qed.

(** X4: a tab button whose [data-tab] is missing, or names no pane of the page,
    leaves no pane active when it is clicked. *)
Theorem click_stray_button_hides_all k t button :
  tabButtons t !! k = Some button ->
  (forall pane, pane ∈ tabPanes t -> id_is_tab pane button = false) ->
  active_panes (click k t) = [].
Proof.
  intros Hk Hnone.
  assert (Hfilter : filter (fun pane => id_is_tab pane button) (tabPanes t) = []).
  { induction (tabPanes t) as [|pane panes IH]; [done|].
    rewrite filter_cons_False.
    - apply IH. intros p Hp. apply Hnone. by right.
    - apply Is_true_false_2, Hnone. by left. }
  pose proof (click_active_panes k t button Hk) as Hids.
  rewrite Hfilter in Hids. by destruct (active_panes (click k t)).
Qed.

Lemma click_stray_button_hides_all_witness :
  active_panes (click 2 tabs_with_stray_buttons) = [] /\
  active_panes (click 3 tabs_with_stray_buttons) = [].
Proof.
  split.
  - apply (click_stray_button_hides_all 2 tabs_with_stray_buttons
             (mkButton ["tab-button"] (Some "unity"))); [reflexivity|].
    intros pane Hin. simpl in Hin.
    repeat (apply elem_of_cons in Hin as [->|Hin]; [reflexivity|]).
    by apply elem_of_nil in Hin.
  - apply (click_stray_button_hides_all 3 tabs_with_stray_buttons
             (mkButton ["tab-button"] None)); [reflexivity|].
    intros pane Hin. reflexivity.
Defined.

(** ** Checkbox renderer: what the population loop leaves alone *)

Lemma createCheckboxes_lookup containerId items (doc : gmap string element) id :
  createCheckboxes containerId items doc !! id
  = (fun e => if decide (containerId = id)
              then mkElement (className e)
                     (strong (heading containerId) ++ map checkbox_label items)%list
              else e) <$> doc !! id.
Proof.
  case_decide as Hid.
  - subst id. destruct (doc !! containerId) as [panel|] eqn:Hpanel.
    + rewrite (createCheckboxes_present _ _ _ _ Hpanel). by rewrite lookup_insert_eq.
    + by rewrite (createCheckboxes_absent _ _ _ Hpanel), Hpanel.
  - rewrite createCheckboxes_other by done. by destruct (doc !! id).
Qed.

Lemma plan_keeps_elements (plan : list (string * list string))
    (doc : gmap string element) id :
  exists f : element -> element,
    (forall e, className (f e) = className e) /\
    fold_left (fun doc r => createCheckboxes (fst r) (snd r) doc) plan doc !! id
    = f <$> doc !! id.
Proof.
  revert doc. induction plan as [|[id0 items0] plan IH]; intros doc.
  - exists (fun e => e). split; [done|]. cbn [fold_left]. by destruct (doc !! id).
  - cbn [fold_left fst snd].
    destruct (IH (createCheckboxes id0 items0 doc)) as (f & Hf & Hfold).
    rewrite Hfold, createCheckboxes_lookup.
    exists (fun e =>
              f (if decide (id0 = id)
                 then mkElement (className e)
                        (strong (heading id0) ++ map checkbox_label items0)%list
                 else e)).
    split.
    + intros e. rewrite Hf. by case_decide.
    + by destruct (doc !! id).
Qed.

(** X6: two renderings into different panels can be made in either order. *)
Theorem createCheckboxes_commute id1 items1 id2 items2
    (doc : gmap string element) :
  id1 <> id2 ->
  createCheckboxes id1 items1 (createCheckboxes id2 items2 doc)
  = createCheckboxes id2 items2 (createCheckboxes id1 items1 doc).
Proof.
  intros Hne. apply map_eq. intros id.
  rewrite !createCheckboxes_lookup.
  destruct (doc !! id) as [e|]; [|done]. cbn.
  repeat case_decide; congruence.
Qed.

Lemma createCheckboxes_commute_witness :
  createCheckboxes "gam-dimensions" ["date"]
    (createCheckboxes "gam-metrics" ["revenue"] gam_page)
  = createCheckboxes "gam-metrics" ["revenue"]
      (createCheckboxes "gam-dimensions" ["date"] gam_page).
Proof.
  apply (createCheckboxes_commute "gam-dimensions" ["date"] "gam-metrics"
           ["revenue"] gam_page).
  discriminate.
Defined.

(** X7: running the population loop a second time changes nothing: every panel
    is rebuilt to the same content. *)
Theorem populate_idempotent (doc : gmap string element) :
  populate (populate doc) = populate doc.
Proof.
  apply map_eq. intros id.
  destruct (decide (id ∈ map fst render_plan)) as [Hin|Hout].
  - apply list_elem_of_In, in_map_iff in Hin as ([id' items] & Hid & Hin).
    cbn in Hid. subst id'. apply list_elem_of_In in Hin.
    destruct (doc !! id) as [panel|] eqn:Hpanel.
    + assert (Hfirst : populate doc !! id
                = Some (mkElement (className panel)
                          (strong (heading id) ++ map checkbox_label items)%list))
        by (rewrite populate_plan;
            by apply plan_rendered; [apply render_plan_NoDup|..]).
      rewrite Hfirst, (populate_plan (populate doc)).
      by rewrite (plan_rendered _ _ _ items _ render_plan_NoDup Hin Hfirst).
    + rewrite (populate_plan (populate doc)).
      destruct (plan_keeps_elements render_plan (populate doc) id) as (f & _ & ->).
      rewrite populate_plan.
      destruct (plan_keeps_elements render_plan doc id) as (g & _ & ->).
      by rewrite Hpanel.
  - rewrite (populate_plan (populate doc)). by apply plan_untouched.
Qed.


(** ** Payload assembly: keys, ignored elements, the provider of a form *)

Lemma prefix_dash_replaced s : String.prefix "-" (JsString.replace_all s "-" "_") = false.
Proof.
  destruct s as [|c s]; [done|]. cbn [JsString.replace_all String.prefix].
  destruct (Ascii.eqb c "-") eqn:Hc.
  - by destruct (ascii_dec "-" "_").
  - destruct (ascii_dec "-" c) as [<-|]; [|done]. by rewrite Ascii.eqb_refl in Hc.
Qed.

Lemma includes_unfold s sub :
  JsString.includes s sub
  = String.prefix sub s ||
    match s with
    | EmptyString => false
    | String _ s' => JsString.includes s' sub
    end.
Proof. by destruct s. Qed.

(** X8: the key of a field never contains a dash. *)
Theorem field_key_dash_free provider id :
  JsString.includes (field_key provider id) "-" = false.
Proof.
  unfold field_key. generalize (JsString.replace_first id (provider +:+ "-") "").
  intros s. induction s as [|c s IH]; [done|].
  rewrite includes_unfold, prefix_dash_replaced.
  cbn [JsString.replace_all orb]. exact IH.
Qed.

Lemma replace_first_absent s pat rep :
  JsString.includes s pat = false -> JsString.replace_first s pat rep = s.
Proof.
  induction s as [|c s IH]; intros Habsent;
    rewrite includes_unfold in Habsent;
    apply orb_false_iff in Habsent as [Hprefix Hrest];
    rewrite replace_first_unfold, Hprefix; [done|].
  by rewrite IH.
Qed.

(** X9: when [<provider>-] does not occur in the id of a field, nothing is
    stripped: the key is the id with its dashes made underscores. *)
Theorem field_key_without_prefix provider id :
  JsString.includes id (provider +:+ "-") = false ->
  field_key provider id = JsString.replace_all id "-" "_".
Proof. intros Habsent. unfold field_key. by rewrite replace_first_absent. Qed.

Lemma field_key_without_prefix_witness :
  field_key "admob" "report-type" = JsString.replace_all "report-type" "-" "_".
Proof. apply (field_key_without_prefix "admob" "report-type"). reflexivity. Defined.

Lemma prefix_before_dash q p rest :
  JsString.includes q "-" = false ->
  String.prefix q p = false ->
  String.prefix q (p +:+ String "-" rest) = false.
Proof.
  revert p. induction q as [|a q IH]; intros p Hfree Hprefix.
  - by destruct p.
  - rewrite includes_unfold in Hfree.
    apply orb_false_iff in Hfree as [Ha Hq]. cbn [String.prefix] in Ha.
    destruct p as [|c p].
    + change (String.prefix (String a q) (String "-" rest) = false).
      cbn [String.prefix]. destruct (ascii_dec a "-") as [->|]; [|done].
      destruct (ascii_dec "-" "-"); [|done]. by destruct q.
    + change (String.prefix (String a q) (String c (p +:+ String "-" rest)) = false).
      cbn [String.prefix] in *. destruct (ascii_dec a c); [|done]. by apply IH.
Qed.

Lemma strip_form_suffix p :
  JsString.includes p "-form" = false ->
  JsString.replace_first (p +:+ "-form") "-form" "" = p.
Proof.
  induction p as [|c p IH]; intros Habsent; [done|].
  rewrite includes_unfold in Habsent.
  apply orb_false_iff in Habsent as [Hprefix Hrest].
  change (JsString.replace_first (String c (p +:+ "-form")) "-form" "" = String c p).
  rewrite replace_first_unfold.
  assert (Hlong : String.prefix "-form" (String c (p +:+ "-form")) = false).
  { cbn [String.prefix] in *. destruct (ascii_dec "-" c); [|done].
    by apply (prefix_before_dash "form" p "form"). }
  rewrite Hlong. by rewrite IH.
Qed.

(** X10: a form whose id is [<p>-form], where [-form] does not occur in [p], is
    submitted for the provider [p]: its status element is [<p>-status], its
    results element [<p>-results]. *)
Theorem provider_of_form_id p endpoint descendants :
  JsString.includes p "-form" = false ->
  provider_of (mkForm (p +:+ "-form") endpoint descendants) = p.
Proof. intros Habsent. unfold provider_of. cbn [form_id]. by apply strip_form_suffix. Qed.

Lemma provider_of_form_id_witness :
  provider_of (mkForm ("chartboost" +:+ "-form") None []) = "chartboost".
Proof. apply (provider_of_form_id "chartboost" None []). reflexivity. Defined.

Lemma fold_inputs_proto provider (l : list control) (m : gmap string pvalue) :
  fold_left
    (fun payload input =>
       if negb (String.eqb (el_type (c_el input)) "checkbox")
       then let key := field_key provider (el_id (c_el input)) in
            set_property key (PString (el_value (c_el input))) payload
       else payload) l m !! "__proto__"
  = m !! "__proto__".
Proof.
  revert m. induction l as [|input l IH]; intros m; [done|].
  cbn [fold_left]. rewrite IH.
  destruct (negb _); [|done]. unfold set_property.
  destruct (String.eqb _ "__proto__") eqn:Hkey; [done|].
  apply lookup_insert_ne. by apply String.eqb_neq.
Qed.

(** X11: the payload has no entry under [__proto__], and none under a key that
    no input or select of the form yields (the two arrays apart). *)
Theorem collect_absent_keys h provider form k :
  k <> "dimensions" -> k <> "metrics" ->
  k = "__proto__" \/
  (forall input, input ∈ inputs_and_selects form ->
                 el_type (c_el input) <> "checkbox" ->
                 field_key provider (el_id (c_el input)) <> k) ->
  fst (collect h provider form) !! k = None.
Proof.
  intros Hdim Hmet Hk. rewrite collect_other_keys by done.
  unfold collect_fields.
  destruct Hk as [->|Hother].
  - by rewrite fold_inputs_proto.
  - by rewrite fold_inputs_other.
Qed.

Lemma collect_absent_keys_witness :
  fst (collect offline "admob" admob_form) !! "__proto__" = None /\
  fst (collect offline "admob" admob_form) !! "country" = None.
Proof.
  split.
  - apply (collect_absent_keys offline "admob" admob_form "__proto__");
      [discriminate|discriminate|by left].
  - apply (collect_absent_keys offline "admob" admob_form "country");
      [discriminate|discriminate|].
    right. intros input Hin Htype. apply list_elem_of_In in Hin.
    vm_compute in Hin.
    repeat (destruct Hin as [<-|Hin]; [first [discriminate|by destruct Htype]|]).
    destruct Hin.
Defined.





(** ** From the rendered panel to the payload *)






(** ** Submission: exceptions, untouched elements, repeated submissions *)

Lemma submit_missing_results_page h form (doc : gmap string element) s :
  doc !! (provider_of form +:+ "-status") = Some s ->
  doc !! (provider_of form +:+ "-results") = None ->
  submit h form doc
  = (alter (set_childNodes (text_children "Polling in progress... Please wait."))
       (provider_of form +:+ "-status")
       (alter (set_className "status loading")
          (provider_of form +:+ "-status") doc),
     Throw (JsError (null_write h "innerHTML"))).
Proof.
  intros Hs Hr. unfold provider_of in *.
  cbv [submit bind ret lift throw try_catch getElementById assign].
  by rewrite Hs, Hr.
Qed.


(** X15: a submission changes no element of the page other than the status
    element and the results element of its form, whatever the response and
    whether or not these two exist. *)
Theorem submit_frame h form (doc : gmap string element) k :
  k <> provider_of form +:+ "-status" ->
  k <> provider_of form +:+ "-results" ->
  fst (submit h form doc) !! k = doc !! k.
Proof.
  intros Hstatus Hresults.
  destruct (doc !! (provider_of form +:+ "-status")) as [s|] eqn:Hs.
  - destruct (doc !! (provider_of form +:+ "-results")) as [r0|] eqn:Hr.
    + destruct (submit_display h form) as (shown & rows & Hdisplay).
      destruct (Hdisplay doc s r0 Hs Hr) as (_ & _ & Hother).
      by apply Hother.
    + rewrite (submit_missing_results_page h form doc s Hs Hr). cbn [fst].
      by rewrite !lookup_alter_ne.
  - by rewrite (submit_missing_status h form doc Hs).
Qed.

Lemma submit_frame_witness :
  fst (submit (answering (Response 200 (Normal two_rows))) admob_form gam_page)
    !! "gam-dimensions"
  = gam_page !! "gam-dimensions".
Proof.
  apply (submit_frame (answering (Response 200 (Normal two_rows))) admob_form
           gam_page "gam-dimensions"); discriminate.
Defined.

(** X16: of two submissions of a form, one after the other, the page keeps
    nothing of the first: it ends as if only the second had been made. *)
Theorem submit_last_response_wins h1 h2 form (doc : gmap string element) :
  is_Some (doc !! (provider_of form +:+ "-status")) ->
  is_Some (doc !! (provider_of form +:+ "-results")) ->
  fst (submit h2 form (fst (submit h1 form doc))) = fst (submit h2 form doc).
Proof.
  intros [s Hs] [r0 Hr].
  destruct (submit_display h1 form) as (shown1 & rows1 & Hfirst).
  destruct (submit_display h2 form) as (shown2 & rows2 & Hsecond).
  destruct (Hfirst doc s r0 Hs Hr) as (Hs1 & Hr1 & Hother1).
  destruct (Hsecond _ _ _ Hs1 Hr1) as (Hs2 & Hr2 & Hother2).
  destruct (Hsecond doc s r0 Hs Hr) as (Hs2' & Hr2' & Hother2').
  apply map_eq. intros k.
  destruct (decide (k = provider_of form +:+ "-status")) as [->|Hks];
    [by rewrite Hs2, Hs2'|].
  destruct (decide (k = provider_of form +:+ "-results")) as [->|Hkr];
    [by rewrite Hr2, Hr2'|].
  by rewrite Hother2, Hother1, Hother2'.
Qed.

Lemma submit_last_response_wins_witness :
  fst (submit (answering (Response 500 (Normal quota_error))) admob_form
         (fst (submit (answering (Response 200 (Normal two_rows))) admob_form
                 admob_page)))
  = fst (submit (answering (Response 500 (Normal quota_error))) admob_form
           admob_page).
Proof.
  apply (submit_last_response_wins
           (answering (Response 200 (Normal two_rows)))
           (answering (Response 500 (Normal quota_error))) admob_form admob_page).
  - eexists. reflexivity.
  - eexists. reflexivity.
Defined.





(** ** Default dates: any time zone, repeated seeding *)

Lemma setDate_local_week LocalTZA today sevenDaysAgo :
  JsDate.Day (today + LocalTZA today true)
  = JsDate.Day (sevenDaysAgo + LocalTZA sevenDaysAgo true) ->
  JsDate.setDate LocalTZA sevenDaysAgo (JsDate.getDate LocalTZA today - 7)
  = (sevenDaysAgo + LocalTZA sevenDaysAgo true - 7 * JsDate.msPerDay
     - LocalTZA (sevenDaysAgo + LocalTZA sevenDaysAgo true - 7 * JsDate.msPerDay)
                false)%Z.
Proof.
  intros Hday.
  unfold JsDate.setDate, JsDate.getDate, JsDate.LocalTime, JsDate.UTC,
    JsDate.MakeDate.
  assert (Hdate : JsDate.DateFromTime (today + LocalTZA today true)
                  = JsDate.DateFromTime (sevenDaysAgo + LocalTZA sevenDaysAgo true))
    by (unfold JsDate.DateFromTime; by rewrite Hday).
  rewrite MakeDay_same_month, Hdate.
  set (lt := (sevenDaysAgo + LocalTZA sevenDaysAgo true)%Z) in *.
  replace ((JsDate.Day lt - JsDate.DateFromTime lt
            + (JsDate.DateFromTime lt - 7)) * JsDate.msPerDay
           + JsDate.TimeWithinDay lt)%Z
    with (lt - 7 * JsDate.msPerDay)%Z by (pose proof (day_time lt); lia).
  done.
Qed.

(** X19: in every time zone, when the year of the current UTC date lies in
    1-9999, a date-typed input whose id contains [-end-date] is given the
    UTC calendar date of the first clock reading, whatever it held
    before. *)
Theorem end_date_is_utc_date LocalTZA today sevenDaysAgo (page : list el) i input :
  (1 <= JsDate.YearFromTime today <= 9999)%Z ->
  page !! i = Some input ->
  is_date_input input = true ->
  JsString.includes (el_id input) "-end-date" = true ->
  setDefaultDates LocalTZA today sevenDaysAgo page !! i
  = Some (set_el_value (JsDate.iso_date (JsDate.Day today)) input).
Proof.
  intros Hyear Hinput Hdate Hend. unfold setDefaultDates.
  rewrite map_lookup, Hinput. cbn [fmap option_fmap option_map].
  rewrite Hdate, Hend. unfold set_date_value.
  by rewrite (seeded_value today Hyear).
Qed.

Lemma end_date_is_utc_date_witness :
  setDefaultDates berlin_2025 march_night march_night date_inputs !! 1%nat
  = Some (set_el_value (JsDate.iso_date (JsDate.Day march_night))
                       (mkEl "input" "gam-end-date" "date" "" false "" "")).
Proof.
  apply (end_date_is_utc_date berlin_2025 march_night march_night date_inputs 1
           (mkEl "input" "gam-end-date" "date" "" false "" ""));
    try reflexivity.
  split; by vm_compute.
Defined.

(** X20: when the two clock readings fall on one day, in UTC and in local
    time, the offset of the zone changes by at most a day between now and a
    week ago, and the year of the start date lies in 1-9999, the start date
    is the UTC date six, seven or eight days before the end date. *)
Theorem start_date_within_a_day_of_a_week LocalTZA today sevenDaysAgo
    (page : list el) i input :
  JsDate.Day today = JsDate.Day sevenDaysAgo ->
  JsDate.Day (today + LocalTZA today true)
  = JsDate.Day (sevenDaysAgo + LocalTZA sevenDaysAgo true) ->
  (- JsDate.msPerDay
   <= LocalTZA sevenDaysAgo true
      - LocalTZA (sevenDaysAgo + LocalTZA sevenDaysAgo true - 7 * JsDate.msPerDay)
                 false
   <= JsDate.msPerDay)%Z ->
  (1 <= JsDate.YearFromTime
          (JsDate.setDate LocalTZA sevenDaysAgo
                          (JsDate.getDate LocalTZA today - 7))
     <= 9999)%Z ->
  page !! i = Some input ->
  is_date_input input = true ->
  JsString.includes (el_id input) "-end-date" = false ->
  JsString.includes (el_id input) "-start-date" = true ->
  exists n,
    (6 <= n <= 8)%Z /\
    setDefaultDates LocalTZA today sevenDaysAgo page !! i
    = Some (set_el_value (JsDate.iso_date (JsDate.Day today - n)) input).
Proof.
  intros Hutc Hlocal Hshift Hyear Hinput Hdate Hend Hstart.
  unfold setDefaultDates.
  rewrite map_lookup, Hinput. cbn [fmap option_fmap option_map].
  rewrite Hdate, Hend, Hstart. unfold set_date_value.
  rewrite (seeded_value _ Hyear). clear Hyear.
  rewrite setDate_local_week by done.
  set (o := LocalTZA sevenDaysAgo true) in *.
  set (o' := LocalTZA (sevenDaysAgo + o - 7 * JsDate.msPerDay)%Z false) in *.
  set (start := JsDate.Day (sevenDaysAgo + o - 7 * JsDate.msPerDay - o')) in *.
  exists (JsDate.Day today - start)%Z.
  split.
  - rewrite Hutc. subst start.
    unfold JsDate.Day, JsDate.msPerDay in *.
    Z.div_mod_to_equations. lia.
  - do 3 f_equal. lia.
Qed.

Lemma start_date_within_a_day_of_a_week_witness :
  exists n,
    (6 <= n <= 8)%Z /\
    setDefaultDates berlin_2025 march_night march_night date_inputs !! 0%nat
    = Some (set_el_value (JsDate.iso_date (JsDate.Day march_night - n))
                         (mkEl "input" "gam-start-date" "date" "" false "" "")).
Proof.
  apply (start_date_within_a_day_of_a_week berlin_2025 march_night march_night
           date_inputs 0 (mkEl "input" "gam-start-date" "date" "" false "" ""));
    try reflexivity.
  - split; by vm_compute.
  - split; by vm_compute.
Defined.

(** X21: the seeding changes nothing but values: every element keeps its tag, id,
    type and checked state, in the same order, and elements that are not
    date inputs are left as they are; seeding a second time with the same
    clock readings changes nothing more. *)
Theorem setDefaultDates_keeps_and_repeats LocalTZA today sevenDaysAgo
    (page : list el) :
  map (fun e => (el_tag e, el_id e, el_type e, el_checked e))
      (setDefaultDates LocalTZA today sevenDaysAgo page)
  = map (fun e => (el_tag e, el_id e, el_type e, el_checked e)) page /\
  filter (fun e => negb (is_date_input e))
         (setDefaultDates LocalTZA today sevenDaysAgo page)
  = filter (fun e => negb (is_date_input e)) page /\
  setDefaultDates LocalTZA today sevenDaysAgo
    (setDefaultDates LocalTZA today sevenDaysAgo page)
  = setDefaultDates LocalTZA today sevenDaysAgo page.
Proof.
  unfold setDefaultDates, set_date_value. split; [|split].
  - rewrite map_map. apply map_ext. intros e.
    destruct (is_date_input e); [|done].
    destruct (JsString.includes (el_id e) "-end-date"); [done|].
    by destruct (JsString.includes (el_id e) "-start-date").
  - induction page as [|e page IH]; [done|]. cbn [map].
    destruct (is_date_input e) eqn:Hdate.
    + rewrite (filter_cons_False _ e) by (rewrite Hdate; simpl; auto).
      rewrite filter_cons_False; [done|].
      apply Is_true_false_2, negb_false_iff.
      destruct (JsString.includes (el_id e) "-end-date"); [done|].
      by destruct (JsString.includes (el_id e) "-start-date").
    + rewrite !filter_cons_True by (by rewrite Hdate). by rewrite IH.
  - rewrite map_map. apply map_ext. intros e.
    destruct (is_date_input e) eqn:Hdate; [|by rewrite Hdate].
    destruct (JsString.includes (el_id e) "-end-date") eqn:Hend.
    + unfold is_date_input in *. cbn [set_el_value el_tag el_type el_id].
      by rewrite Hdate, Hend.
    + destruct (JsString.includes (el_id e) "-start-date") eqn:Hstart.
      * unfold is_date_input in *. cbn [set_el_value el_tag el_type el_id].
        by rewrite Hdate, Hend, Hstart.
      * by rewrite Hdate, Hend, Hstart.
Qed.
